(** * Shallow embedding of the Fitbit data-processing pipeline
    (scripts/data_processing.py): loading, minute-sleep reduction,
    merging and the cleaning pipeline [clean_data].

    Numbers of a DataFrame column are modelled as exact rationals [Q];
    a missing value (NaN / NaT) is [None]. *)

From Stdlib Require Import ZArith QArith Qround List String Bool Lia Lqa.
Import ListNotations.
Open Scope Q_scope.

(** ** Cells *)

(** A numeric DataFrame cell: [None] is NaN. *)
Definition cell := option Q.

Definition notna (c : cell) : bool := match c with Some _ => true | None => false end.
Definition isna (c : cell) : bool := negb (notna c).

(** [Series.notna().astype(int)] *)
Definition flag (b : bool) : cell := Some (if b then 1 else 0).

(** [Series.fillna(other)] for one cell. *)
Definition fillna (c other : cell) : cell :=
  match c with Some _ => c | None => other end.

Definition Qltb (x y : Q) : bool := negb (Qle_bool y x).

(** Equality of cells as [drop_duplicates] sees it: NaN equals NaN. *)
Definition cell_eqb (a b : cell) : bool :=
  match a, b with
  | Some x, Some y => Qeq_bool x y
  | None, None => true
  | _, _ => false
  end.

Definition ocell_eqb (a b : option cell) : bool :=
  match a, b with
  | Some x, Some y => cell_eqb x y
  | None, None => true
  | _, _ => false
  end.

Definition odate_eqb (a b : option string) : bool :=
  match a, b with
  | Some x, Some y => String.eqb x y
  | None, None => true
  | _, _ => false
  end.

Fixpoint cells_eqb (a b : list cell) : bool :=
  match a, b with
  | [], [] => true
  | x :: a', y :: b' => cell_eqb x y && cells_eqb a' b'
  | _, _ => false
  end.

(** numpy's [around(x, 2)]: scale by 100, round half to even, scale back. *)
Definition rint (y : Q) : Z :=
  let n := Qfloor y in
  let f := y - inject_Z n in
  if Qltb f (1 # 2) then n
  else if Qltb (1 # 2) f then (n + 1)%Z
  else if Z.even n then n else (n + 1)%Z.

Definition round2 (x : Q) : Q := inject_Z (rint (x * 100)) / 100.

(** ** Rows of the merged table *)

(** One row of the unified table.  [SedentaryActiveDistance] and
    [AvgWeightPounds] are [option cell]: [None] once the column has been
    dropped by [drop_unnecessary_columns].  [OtherActivity] holds the other
    numeric columns of dailyActivity_merged.csv (TrackerDistance,
    LoggedActivitiesDistance, ModeratelyActiveDistance, LightActiveDistance,
    FairlyActiveMinutes, LightlyActiveMinutes, SedentaryMinutes), which the
    pipeline only scrubs and rounds.  The flag and derived-metric columns
    do not exist in a table straight from the merger; they are [None] there,
    and every stage assigns them before reading them. *)
Record Row := mkRow {
  Id : cell;
  Date : option string;
  TotalSteps : cell;
  TotalDistance : cell;
  VeryActiveDistance : cell;
  SedentaryActiveDistance : option cell;
  VeryActiveMinutes : cell;
  Calories : cell;
  OtherActivity : list cell;
  TotalMinutesAsleep : cell;
  TotalTimeInBed : cell;
  AvgWeightKg : cell;
  AvgWeightPounds : option cell;
  AvgBMI : cell;
  AvgHeartRate : cell;
  HasSleepData : cell;
  HasWeightData : cell;
  HasBMIData : cell;
  HasHeartRateData : cell;
  SleepEfficiency : cell;
  VeryActiveRatio : cell
}.

Definition Table := list Row.

Definition row_eqb (a b : Row) : bool :=
  cell_eqb (Id a) (Id b) && odate_eqb (Date a) (Date b)
  && cell_eqb (TotalSteps a) (TotalSteps b)
  && cell_eqb (TotalDistance a) (TotalDistance b)
  && cell_eqb (VeryActiveDistance a) (VeryActiveDistance b)
  && ocell_eqb (SedentaryActiveDistance a) (SedentaryActiveDistance b)
  && cell_eqb (VeryActiveMinutes a) (VeryActiveMinutes b)
  && cell_eqb (Calories a) (Calories b)
  && cells_eqb (OtherActivity a) (OtherActivity b)
  && cell_eqb (TotalMinutesAsleep a) (TotalMinutesAsleep b)
  && cell_eqb (TotalTimeInBed a) (TotalTimeInBed b)
  && cell_eqb (AvgWeightKg a) (AvgWeightKg b)
  && ocell_eqb (AvgWeightPounds a) (AvgWeightPounds b)
  && cell_eqb (AvgBMI a) (AvgBMI b)
  && cell_eqb (AvgHeartRate a) (AvgHeartRate b)
  && cell_eqb (HasSleepData a) (HasSleepData b)
  && cell_eqb (HasWeightData a) (HasWeightData b)
  && cell_eqb (HasBMIData a) (HasBMIData b)
  && cell_eqb (HasHeartRateData a) (HasHeartRateData b)
  && cell_eqb (SleepEfficiency a) (SleepEfficiency b)
  && cell_eqb (VeryActiveRatio a) (VeryActiveRatio b).

(** Column assignments [df[col] = ...] on one row. *)
Definition set_HasSleepData (r : Row) (v : cell) : Row :=
  {| Id := Id r; Date := Date r; TotalSteps := TotalSteps r;
     TotalDistance := TotalDistance r; VeryActiveDistance := VeryActiveDistance r;
     SedentaryActiveDistance := SedentaryActiveDistance r;
     VeryActiveMinutes := VeryActiveMinutes r; Calories := Calories r;
     OtherActivity := OtherActivity r; TotalMinutesAsleep := TotalMinutesAsleep r;
     TotalTimeInBed := TotalTimeInBed r; AvgWeightKg := AvgWeightKg r;
     AvgWeightPounds := AvgWeightPounds r; AvgBMI := AvgBMI r;
     AvgHeartRate := AvgHeartRate r; HasSleepData := v;
     HasWeightData := HasWeightData r; HasBMIData := HasBMIData r;
     HasHeartRateData := HasHeartRateData r; SleepEfficiency := SleepEfficiency r;
     VeryActiveRatio := VeryActiveRatio r |}.

Definition set_AvgWeightKg (r : Row) (v : cell) : Row :=
  {| Id := Id r; Date := Date r; TotalSteps := TotalSteps r;
     TotalDistance := TotalDistance r; VeryActiveDistance := VeryActiveDistance r;
     SedentaryActiveDistance := SedentaryActiveDistance r;
     VeryActiveMinutes := VeryActiveMinutes r; Calories := Calories r;
     OtherActivity := OtherActivity r; TotalMinutesAsleep := TotalMinutesAsleep r;
     TotalTimeInBed := TotalTimeInBed r; AvgWeightKg := v;
     AvgWeightPounds := AvgWeightPounds r; AvgBMI := AvgBMI r;
     AvgHeartRate := AvgHeartRate r; HasSleepData := HasSleepData r;
     HasWeightData := HasWeightData r; HasBMIData := HasBMIData r;
     HasHeartRateData := HasHeartRateData r; SleepEfficiency := SleepEfficiency r;
     VeryActiveRatio := VeryActiveRatio r |}.

Definition set_AvgBMI (r : Row) (v : cell) : Row :=
  {| Id := Id r; Date := Date r; TotalSteps := TotalSteps r;
     TotalDistance := TotalDistance r; VeryActiveDistance := VeryActiveDistance r;
     SedentaryActiveDistance := SedentaryActiveDistance r;
     VeryActiveMinutes := VeryActiveMinutes r; Calories := Calories r;
     OtherActivity := OtherActivity r; TotalMinutesAsleep := TotalMinutesAsleep r;
     TotalTimeInBed := TotalTimeInBed r; AvgWeightKg := AvgWeightKg r;
     AvgWeightPounds := AvgWeightPounds r; AvgBMI := v;
     AvgHeartRate := AvgHeartRate r; HasSleepData := HasSleepData r;
     HasWeightData := HasWeightData r; HasBMIData := HasBMIData r;
     HasHeartRateData := HasHeartRateData r; SleepEfficiency := SleepEfficiency r;
     VeryActiveRatio := VeryActiveRatio r |}.

Definition set_AvgHeartRate (r : Row) (v : cell) : Row :=
  {| Id := Id r; Date := Date r; TotalSteps := TotalSteps r;
     TotalDistance := TotalDistance r; VeryActiveDistance := VeryActiveDistance r;
     SedentaryActiveDistance := SedentaryActiveDistance r;
     VeryActiveMinutes := VeryActiveMinutes r; Calories := Calories r;
     OtherActivity := OtherActivity r; TotalMinutesAsleep := TotalMinutesAsleep r;
     TotalTimeInBed := TotalTimeInBed r; AvgWeightKg := AvgWeightKg r;
     AvgWeightPounds := AvgWeightPounds r; AvgBMI := AvgBMI r;
     AvgHeartRate := v; HasSleepData := HasSleepData r;
     HasWeightData := HasWeightData r; HasBMIData := HasBMIData r;
     HasHeartRateData := HasHeartRateData r; SleepEfficiency := SleepEfficiency r;
     VeryActiveRatio := VeryActiveRatio r |}.

(** [flag_weight_tracking] assigns both flags at once. *)
Definition set_weight_flags (r : Row) (w b : cell) : Row :=
  {| Id := Id r; Date := Date r; TotalSteps := TotalSteps r;
     TotalDistance := TotalDistance r; VeryActiveDistance := VeryActiveDistance r;
     SedentaryActiveDistance := SedentaryActiveDistance r;
     VeryActiveMinutes := VeryActiveMinutes r; Calories := Calories r;
     OtherActivity := OtherActivity r; TotalMinutesAsleep := TotalMinutesAsleep r;
     TotalTimeInBed := TotalTimeInBed r; AvgWeightKg := AvgWeightKg r;
     AvgWeightPounds := AvgWeightPounds r; AvgBMI := AvgBMI r;
     AvgHeartRate := AvgHeartRate r; HasSleepData := HasSleepData r;
     HasWeightData := w; HasBMIData := b;
     HasHeartRateData := HasHeartRateData r; SleepEfficiency := SleepEfficiency r;
     VeryActiveRatio := VeryActiveRatio r |}.

Definition set_HasHeartRateData (r : Row) (v : cell) : Row :=
  {| Id := Id r; Date := Date r; TotalSteps := TotalSteps r;
     TotalDistance := TotalDistance r; VeryActiveDistance := VeryActiveDistance r;
     SedentaryActiveDistance := SedentaryActiveDistance r;
     VeryActiveMinutes := VeryActiveMinutes r; Calories := Calories r;
     OtherActivity := OtherActivity r; TotalMinutesAsleep := TotalMinutesAsleep r;
     TotalTimeInBed := TotalTimeInBed r; AvgWeightKg := AvgWeightKg r;
     AvgWeightPounds := AvgWeightPounds r; AvgBMI := AvgBMI r;
     AvgHeartRate := AvgHeartRate r; HasSleepData := HasSleepData r;
     HasWeightData := HasWeightData r; HasBMIData := HasBMIData r;
     HasHeartRateData := v; SleepEfficiency := SleepEfficiency r;
     VeryActiveRatio := VeryActiveRatio r |}.

(** [add_derived_metrics] assigns both ratio columns. *)
Definition set_derived (r : Row) (se var : cell) : Row :=
  {| Id := Id r; Date := Date r; TotalSteps := TotalSteps r;
     TotalDistance := TotalDistance r; VeryActiveDistance := VeryActiveDistance r;
     SedentaryActiveDistance := SedentaryActiveDistance r;
     VeryActiveMinutes := VeryActiveMinutes r; Calories := Calories r;
     OtherActivity := OtherActivity r; TotalMinutesAsleep := TotalMinutesAsleep r;
     TotalTimeInBed := TotalTimeInBed r; AvgWeightKg := AvgWeightKg r;
     AvgWeightPounds := AvgWeightPounds r; AvgBMI := AvgBMI r;
     AvgHeartRate := AvgHeartRate r; HasSleepData := HasSleepData r;
     HasWeightData := HasWeightData r; HasBMIData := HasBMIData r;
     HasHeartRateData := HasHeartRateData r; SleepEfficiency := se;
     VeryActiveRatio := var |}.

(** [drop_unnecessary_columns]: [df.drop(columns=["SedentaryActiveDistance",
    "AvgWeightPounds"], errors="ignore")]. *)
Definition drop_cols_row (r : Row) : Row :=
  {| Id := Id r; Date := Date r; TotalSteps := TotalSteps r;
     TotalDistance := TotalDistance r; VeryActiveDistance := VeryActiveDistance r;
     SedentaryActiveDistance := None;
     VeryActiveMinutes := VeryActiveMinutes r; Calories := Calories r;
     OtherActivity := OtherActivity r; TotalMinutesAsleep := TotalMinutesAsleep r;
     TotalTimeInBed := TotalTimeInBed r; AvgWeightKg := AvgWeightKg r;
     AvgWeightPounds := None; AvgBMI := AvgBMI r;
     AvgHeartRate := AvgHeartRate r; HasSleepData := HasSleepData r;
     HasWeightData := HasWeightData r; HasBMIData := HasBMIData r;
     HasHeartRateData := HasHeartRateData r; SleepEfficiency := SleepEfficiency r;
     VeryActiveRatio := VeryActiveRatio r |}.

(** Apply [fi] to the identifier and flag columns and [f] to every other
    numeric column that is present ([Date] is the only non-numeric column). *)
Definition map_numeric (fi f : cell -> cell) (r : Row) : Row :=
  {| Id := fi (Id r); Date := Date r; TotalSteps := f (TotalSteps r);
     TotalDistance := f (TotalDistance r);
     VeryActiveDistance := f (VeryActiveDistance r);
     SedentaryActiveDistance := option_map f (SedentaryActiveDistance r);
     VeryActiveMinutes := f (VeryActiveMinutes r); Calories := f (Calories r);
     OtherActivity := map f (OtherActivity r);
     TotalMinutesAsleep := f (TotalMinutesAsleep r);
     TotalTimeInBed := f (TotalTimeInBed r); AvgWeightKg := f (AvgWeightKg r);
     AvgWeightPounds := option_map f (AvgWeightPounds r); AvgBMI := f (AvgBMI r);
     AvgHeartRate := f (AvgHeartRate r); HasSleepData := fi (HasSleepData r);
     HasWeightData := fi (HasWeightData r); HasBMIData := fi (HasBMIData r);
     HasHeartRateData := fi (HasHeartRateData r);
     SleepEfficiency := f (SleepEfficiency r);
     VeryActiveRatio := f (VeryActiveRatio r) |}.

(** Every numeric cell of a row ([df.select_dtypes(include=["number"])]). *)
Definition numeric_cells (r : Row) : list cell :=
  [Id r; TotalSteps r; TotalDistance r; VeryActiveDistance r]
  ++ match SedentaryActiveDistance r with Some c => [c] | None => [] end
  ++ [VeryActiveMinutes r; Calories r] ++ OtherActivity r
  ++ [TotalMinutesAsleep r; TotalTimeInBed r; AvgWeightKg r]
  ++ match AvgWeightPounds r with Some c => [c] | None => [] end
  ++ [AvgBMI r; AvgHeartRate r; HasSleepData r; HasWeightData r; HasBMIData r;
      HasHeartRateData r; SleepEfficiency r; VeryActiveRatio r].

(** ** The cleaning stages *)

(** [handle_duplicates]: [df.drop_duplicates()], keeping first occurrences. *)
Fixpoint drop_duplicates_aux (seen : list Row) (t : Table) : Table :=
  match t with
  | [] => []
  | r :: t' =>
      if existsb (row_eqb r) seen then drop_duplicates_aux seen t'
      else r :: drop_duplicates_aux (r :: seen) t'
  end.

Definition handle_duplicates (t : Table) : Table := drop_duplicates_aux [] t.

(** Values of a column, NaN skipped. *)
Fixpoint present (cs : list cell) : list Q :=
  match cs with
  | [] => []
  | Some x :: cs' => x :: present cs'
  | None :: cs' => present cs'
  end.

Definition Qsum (xs : list Q) : Q := fold_right Qplus 0 xs.

(** [Series.mean()] (NaN skipped; NaN when nothing is left). *)
Definition mean (cs : list cell) : cell :=
  match present cs with
  | [] => None
  | xs => Some (Qsum xs / inject_Z (Z.of_nat (List.length xs)))
  end.

(** [df.groupby("Id")[col].transform("mean")] at a row with identifier
    [id]: the mean of the column over the rows of the same Id; rows whose
    Id is NaN belong to no group and get NaN. *)
Definition user_mean (col : Row -> cell) (t : Table) (id : cell) : cell :=
  match id with
  | None => None
  | Some i =>
      mean (map col (filter (fun r => cell_eqb (Id r) (Some i)) t))
  end.

(** [Series.sum()] (NaN skipped). *)
Definition col_sum (col : Row -> cell) (t : Table) : Q := Qsum (present (map col t)).

Definition cell_mul (a b : cell) : cell :=
  match a, b with Some x, Some y => Some (x * y) | _, _ => None end.

(** [handle_missing_values].  The calorie imputation builds the filled
    Series and discards it, as [df["Calories"].fillna(...)] without
    assignment does.  (Q division by zero is 0 where numpy gives inf/nan;
    the value is never used.) *)
Definition handle_missing_values (t : Table) : Table :=
  let t1 := filter (fun r => notna (TotalSteps r) && notna (Calories r)) t in
  let t2 := map (fun r => set_HasSleepData r (flag (notna (TotalMinutesAsleep r)))) t1 in
  let t3 := map (fun r => set_AvgWeightKg r
                   (fillna (AvgWeightKg r) (user_mean AvgWeightKg t2 (Id r)))) t2 in
  let t4 := map (fun r => set_AvgBMI r
                   (fillna (AvgBMI r) (user_mean AvgBMI t3 (Id r)))) t3 in
  let t5 := map (fun r => set_AvgHeartRate r
                   (fillna (AvgHeartRate r) (user_mean AvgHeartRate t4 (Id r)))) t4 in
  let avg_calories_per_step := col_sum Calories t5 / col_sum TotalSteps t5 in
  let _calories_filled :=
    map (fun r => fillna (Calories r)
                    (cell_mul (TotalSteps r) (Some avg_calories_per_step))) t5 in
  t5.

(** [flag_weight_tracking] *)
Definition flag_weight_tracking (t : Table) : Table :=
  map (fun r => set_weight_flags r (flag (notna (AvgWeightKg r)))
                                   (flag (notna (AvgBMI r)))) t.

(** Insertion sort, for [Series.quantile]. *)
Fixpoint insert_sorted (x : Q) (xs : list Q) : list Q :=
  match xs with
  | [] => [x]
  | y :: ys => if Qle_bool x y then x :: xs else y :: insert_sorted x ys
  end.

Definition sort_Q (xs : list Q) : list Q := fold_right insert_sorted [] xs.

(** [Series.quantile(q)], pandas' default linear interpolation over the
    sorted non-NaN values; NaN on an all-NaN column. *)
Definition quantile (q : Q) (cs : list cell) : cell :=
  match sort_Q (present cs) with
  | [] => None
  | xs =>
      let h := inject_Z (Z.of_nat (List.length xs) - 1) * q in
      let i := Qfloor h in
      let lo := nth (Z.to_nat i) xs 0 in
      let hi := nth (S (Z.to_nat i)) xs lo in
      Some (lo + (h - inject_Z i) * (hi - lo))
  end.

(** Tukey bounds [Q1 - 1.5 IQR, Q3 + 1.5 IQR] of a column of a table. *)
Definition tukey_bounds (col : Row -> cell) (t : Table) : option (Q * Q) :=
  match quantile (1 # 4) (map col t), quantile (3 # 4) (map col t) with
  | Some q1, Some q3 =>
      let iqr := q3 - q1 in Some (q1 - (3 # 2) * iqr, q3 + (3 # 2) * iqr)
  | _, _ => None
  end.

(** [df[col].isna() | ((df[col] >= lower) & (df[col] <= upper))];
    comparisons with NaN bounds are false. *)
Definition within (b : option (Q * Q)) (c : cell) : bool :=
  isna c ||
  match b, c with
  | Some (lo, hi), Some v => Qle_bool lo v && Qle_bool v hi
  | _, _ => false
  end.

(** One iteration of the loop in [handle_outliers]. *)
Definition iqr_step (t : Table) (col : Row -> cell) : Table :=
  let b := tukey_bounds col t in filter (fun r => within b (col r)) t.

Definition outlier_columns : list (Row -> cell) :=
  [TotalSteps; Calories; VeryActiveMinutes; TotalDistance].

Definition hr_plausible (c : cell) : bool := within (Some (30, 250)) c.

(** [handle_outliers] *)
Definition handle_outliers (t : Table) : Table :=
  let t1 := fold_left iqr_step outlier_columns t in
  let t2 := filter (fun r => hr_plausible (AvgHeartRate r)) t1 in
  map (fun r => set_HasHeartRateData r (flag (notna (AvgHeartRate r)))) t2.

(** [df[a] > 0] (false on NaN). *)
Definition gt0 (c : cell) : bool :=
  match c with Some x => Qltb 0 x | None => false end.

(** Element-wise division of two columns.  A zero divisor gives inf or NaN
    in numpy; both are outside the finite cells modelled here, and
    [np.where] never selects them, so they are written as NaN. *)
Definition cell_div (a b : cell) : cell :=
  match a, b with
  | Some x, Some y => if Qeq_bool y 0 then None else Some (x / y)
  | _, _ => None
  end.

(** [np.where(cond, a, b)] at one position. *)
Definition np_where (c : bool) (a b : cell) : cell := if c then a else b.

(** [add_derived_metrics] *)
Definition add_derived_metrics (t : Table) : Table :=
  map (fun r =>
         set_derived r
           (np_where (gt0 (TotalTimeInBed r))
              (cell_div (TotalMinutesAsleep r) (TotalTimeInBed r)) None)
           (np_where (gt0 (TotalDistance r))
              (cell_div (VeryActiveDistance r) (TotalDistance r)) None)) t.

(** [drop_unnecessary_columns] *)
Definition drop_unnecessary_columns (t : Table) : Table := map drop_cols_row t.

(** [lambda x: np.nan if x < 0 else x] *)
Definition scrub (c : cell) : cell :=
  match c with Some x => if Qltb x 0 then None else c | None => None end.

(** [handle_negative_values]: every numeric column, Id and flags included. *)
Definition handle_negative_values (t : Table) : Table :=
  map (map_numeric scrub scrub) t.

(** [round_decimal_values]: [round(2)] on numeric columns except Id and
    the four flag columns. *)
Definition round_decimal_values (t : Table) : Table :=
  map (map_numeric (fun c => c) (option_map round2)) t.

(** [clean_data] *)
Definition clean_data (t : Table) : Table :=
  round_decimal_values
    (handle_negative_values
       (drop_unnecessary_columns
          (add_derived_metrics
             (handle_outliers
                (flag_weight_tracking
                   (handle_missing_values
                      (handle_duplicates t))))))).

(** ** Sample rows *)

(** A merged-table row carrying only activity and heart-rate values. *)
Definition sample_row (id : Z) (steps cal vam dist hr : cell) : Row :=
  {| Id := Some (inject_Z id); Date := Some "2016-04-01"%string;
     TotalSteps := steps; TotalDistance := dist; VeryActiveDistance := None;
     SedentaryActiveDistance := Some None; VeryActiveMinutes := vam;
     Calories := cal; OtherActivity := []; TotalMinutesAsleep := None;
     TotalTimeInBed := None; AvgWeightKg := None; AvgWeightPounds := Some None;
     AvgBMI := None; AvgHeartRate := hr; HasSleepData := None;
     HasWeightData := None; HasBMIData := None; HasHeartRateData := None;
     SleepEfficiency := None; VeryActiveRatio := None |}.

(** ** Merging: [df.merge(other, on=["Id", "Date"], how="left")] *)

(** The join key [(Id, Date)]; a NaT date is [None] and, as in pandas,
    NaN keys match each other. *)
Definition key := (Z * option string)%type.

Definition key_eqb (a b : key) : bool :=
  Z.eqb (fst a) (fst b) && odate_eqb (snd a) (snd b).

Section LeftJoin.
Context {A B : Type} (ka : A -> key) (kb : B -> key).

(** Left merge: every left row, once per matching right row in right
    order, or once with NaN columns when nothing matches. *)
Definition matches (r : list B) (a : A) : list B :=
  filter (fun b => key_eqb (ka a) (kb b)) r.

Definition left_join (l : list A) (r : list B) : list (A * option B) :=
  flat_map (fun a =>
              match matches r a with
              | [] => [(a, None)]
              | ms => map (fun b => (a, Some b)) ms
              end) l.
End LeftJoin.

(** [pd.concat([df_3_12, df_4_12], ignore_index=True)], the body of
    [merge_activity_data], [merge_sleep_data], [merge_weight_data] and
    [merge_heart_rate_data].  Tables are lists of (key, other columns). *)
Definition concat_windows {P : Type} (w1 w2 : list (key * P)) : list (key * P) :=
  w1 ++ w2.

(** [merge_all_data], taking the two windows of each source kind. *)
Definition merge_all_data {P S W H : Type}
    (act1 act2 : list (key * P)) (sl1 sl2 : list (key * S))
    (wt1 wt2 : list (key * W)) (hr1 hr2 : list (key * H)) :=
  let activity_data := concat_windows act1 act2 in
  let sleep_data := concat_windows sl1 sl2 in
  let weight_data := concat_windows wt1 wt2 in
  let heartrate_data := concat_windows hr1 hr2 in
  left_join (fun p => fst (fst (fst p))) fst
    (left_join (fun p => fst (fst p)) fst
       (left_join fst fst activity_data sleep_data) weight_data)
    heartrate_data.

(** ** Minute-level sleep to daily sleep *)

(** A row of minuteSleep_merged.csv after [standardize_date_format]:
    Id, the date-only [Date] (NaT is [None]) and the stage [value]
    ([logId] is dropped first). *)
Record MinuteSleep := mkMinuteSleep {
  ms_Id : Z;
  ms_Date : option string;
  ms_value : Z
}.

Definition ms_key (m : MinuteSleep) : key := (ms_Id m, ms_Date m).

Definition key_dec (a b : key) : {a = b} + {a <> b}.
Proof. decide equality; [decide equality; apply string_dec | apply Z.eq_dec]. Defined.

(** The groups of [groupby(["Id", date_col])]: distinct keys, NaN dates
    dropped (pandas' [dropna=True]).  pandas lists them sorted; the order
    plays no part below. *)
Definition group_keys (ks : list key) : list key :=
  nodup key_dec (filter (fun k => match snd k with Some _ => true | None => false end) ks).

(** [.size()] of that grouping. *)
Definition group_size (t : list MinuteSleep) : list (key * nat) :=
  map (fun k => (k, List.length (filter (fun m => key_eqb (ms_key m) k) t)))
      (group_keys (map ms_key t)).

(** [convert_minute_sleep_to_daily] on the table it converts: rows
    (key, TotalMinutesAsleep, TotalTimeInBed). *)
Definition convert_minute_sleep_to_daily (t : list MinuteSleep)
    : list (key * nat * nat) :=
  let sleep_summary := group_size t in
  let asleep_summary := group_size (filter (fun m => Z.eqb (ms_value m) 1) t) in
  let merged := left_join fst fst sleep_summary asleep_summary in
  map (fun p => match p with
                | ((k, n), Some (_, a)) => (k, a, n)
                | ((k, n), None) => (k, 0%nat, n)   (* fillna(0) *)
                end) merged.

(** ** Loading *)

(** Python's [sub in s]. *)
Fixpoint contains (sub s : string) : bool :=
  match s with
  | EmptyString => String.prefix sub s
  | String _ s' => String.prefix sub s || contains sub s'
  end.

Definition KEEP_FILES : list string :=
  ["dailyActivity_merged.csv"; "sleepDay_merged.csv";
   "heartrate_seconds_merged.csv"; "weightLogInfo_merged.csv";
   "minuteSleep_merged.csv"]%string.

(** A file found by [directory.glob("**/*.csv")], as its path parts. *)
Definition path := list string.

Definition path_name (f : path) : string := last f EmptyString.

(** [file.parts[-2]] *)
Definition parent_name (f : path) : string := nth (List.length f - 2) f EmptyString.

(** [file.stem] of a ".csv" file. *)
Definition path_stem (f : path) : string :=
  let n := path_name f in substring 0 (String.length n - 4) n.

Definition in_strings (s : string) (l : list string) : bool :=
  existsb (String.eqb s) l.

(** [categorize_files], first component. *)
Definition files_to_keep (fs : list path) : list path :=
  filter (fun f => in_strings (path_name f) KEEP_FILES) fs.

(** The window tag of [load_data]. *)
Definition time_period (folder_name : string) : string :=
  if contains "3.12.16-4.11.16" folder_name then "3_12" else "4_12".

Definition file_key (f : path) : string :=
  (path_stem f ++ "_" ++ time_period (parent_name f))%string.

(** [dfs[k] = v] on a dict kept as an association list. *)
Definition dict_set {V : Type} (k : string) (v : V) (d : list (string * V))
    : list (string * V) :=
  (k, v) :: filter (fun p => negb (String.eqb k (fst p))) d.

(** [load_data] over the listed files; a loaded table is represented by
    the path [pd.read_csv] reads it from. *)
Definition load_data (all_files : list path) : list (string * path) :=
  fold_left (fun dfs f => dict_set (file_key f) f dfs) (files_to_keep all_files) [].

(** ** Readings of the specification, compared with the code below *)

(** Tukey filtering as a reading of the specification words "for each
    column independently, bounds over the whole population": every
    column's bounds from the whole input table. *)
Definition tukey_independent (t : Table) : Table :=
  filter (fun r => forallb (fun col => within (tukey_bounds col t) (col r))
                           outlier_columns) t.

(** "AvgHeartRate is null or in [30, 250]". *)
Definition hr_ok (c : cell) : Prop :=
  c = None \/ exists v, c = Some v /\ 30 <= v <= 250.

(** "X / Y when Y > 0, else null". *)
Definition guarded_ratio (num den : cell) : cell :=
  match den with
  | Some d => if Qltb 0 d then match num with Some n => Some (n / d) | None => None end
              else None
  | None => None
  end.

Definition nonneg_or_null (c : cell) : Prop :=
  match c with Some x => 0 <= x | None => True end.

(** Identifying and activity columns of a row, which the missing-value
    stage does not assign. *)
Definition activity_part (r : Row) :=
  (Id r, Date r, TotalSteps r, TotalDistance r, VeryActiveDistance r,
   VeryActiveMinutes r, Calories r, OtherActivity r,
   TotalMinutesAsleep r, TotalTimeInBed r).

Definition essential (r : Row) : bool := notna (TotalSteps r) && notna (Calories r).

(** ** Sample tables *)

Definition qz (z : Z) : cell := Some (inject_Z z).

(** TotalSteps population [1000, 2000, 3000, 4000, 100000]. *)
Definition steps_table : Table :=
  map (fun p => sample_row (fst p) (qz (snd p)) (qz 300) None None None)
      [(1, 1000); (2, 2000); (3, 3000); (4, 4000); (5, 100000)]%Z.

(** Steps [1, 1, 1, 1, 100] and calories [10, 10, 10, 14, 14]. *)
Definition sequential_table : Table :=
  map (fun p => sample_row (fst (fst p)) (qz (snd (fst p))) (qz (snd p)) None None None)
      [(1, 1, 10); (2, 1, 10); (3, 1, 10); (4, 1, 14); (5, 100, 14)]%Z.

(** Steps [1, 1, 1, 1, 2, 3] for six users. *)
Definition rerun_table : Table :=
  map (fun p => sample_row (fst p) (qz (snd p)) (qz 10) None None None)
      [(1, 1); (2, 1); (3, 1); (4, 1); (5, 2); (6, 3)]%Z.

(** One activity day with an implausible average heart rate of 20. *)
Definition low_hr_table : Table :=
  [sample_row 1 (qz 8000) (qz 2000) (qz 30) (qz 5) (qz 20)].

(** The rows (TotalSteps=12000, Calories=400) and (TotalSteps=null,
    Calories=500). *)
Definition essential_table : Table :=
  [sample_row 1 (qz 12000) (qz 400) None None None;
   sample_row 2 None (qz 500) None None None].

(** 450 minute rows of user 1 on 2016-04-01, 300 of them asleep. *)
Definition night_minutes : list MinuteSleep :=
  repeat (mkMinuteSleep 1 (Some "2016-04-01"%string) 1) 300
  ++ repeat (mkMinuteSleep 1 (Some "2016-04-01"%string) 2) 150.

Definition day_key : key := (1%Z, Some "2016-04-12"%string).

(** A daily-activity export of the second window. *)
Definition april_activity_file : path :=
  ["data"; "raw"; "Fitabase Data 4.12.16-5.12.16"; "dailyActivity_merged.csv"]%string.

Definition sample_files : list path :=
  [["data"; "raw"; "Fitabase Data 3.12.16-4.11.16"; "sleepDay_merged.csv"];
   april_activity_file;
   ["data"; "raw"; "Fitabase Data 4.12.16-5.12.16"; "dailySteps_merged.csv"]]%string.

(** ** Further parts of data_processing.py *)

Definition REMOVE_FILES : list string :=
  ["dailySteps_merged.csv"; "dailyCalories_merged.csv";
   "dailyIntensities_merged.csv"; "minuteIntensitiesWide_merged.csv";
   "minuteStepsWide_merged.csv"; "minuteCaloriesWide_merged.csv";
   "minuteIntensitiesNarrow_merged.csv"; "minuteStepsNarrow_merged.csv";
   "minuteCaloriesNarrow_merged.csv"; "hourlySteps_merged.csv";
   "hourlyCalories_merged.csv"; "hourlyIntensities_merged.csv";
   "minuteMETsNarrow_merged.csv"]%string.

(** [categorize_files]: (files_to_keep, files_to_remove). *)
Definition categorize_files (fs : list path) : list path * list path :=
  (filter (fun f => in_strings (path_name f) KEEP_FILES) fs,
   filter (fun f => in_strings (path_name f) REMOVE_FILES) fs).

(** [compare_data_folders] on the file names of two folders ([None]: the
    folder does not exist, and the function returns [{}], written [None]);
    the three Python sets are lists: common, unique to 1, unique to 2. *)
Definition compare_data_folders (folder1 folder2 : option (list string))
    : option (list string * list string * list string) :=
  match folder1, folder2 with
  | Some files1, Some files2 =>
      Some (filter (fun x => in_strings x files2) files1,
            filter (fun x => negb (in_strings x files2)) files1,
            filter (fun x => negb (in_strings x files1)) files2)
  | _, _ => None
  end.

(** A row of heartrate_seconds_merged.csv after [standardize_date_format]:
    Id, the date-only [Date] and the reading [Value]. *)
Record HeartRateSecond := mkHeartRateSecond {
  hs_Id : Z;
  hs_Date : option string;
  hs_Value : cell
}.

Definition hs_key (h : HeartRateSecond) : key := (hs_Id h, hs_Date h).

(** [convert_second_heartrate_to_daily] on one table:
    [groupby(["Id", date_col]).agg(AvgHeartRate=("Value", "mean"))]. *)
Definition convert_second_heartrate_to_daily (t : list HeartRateSecond)
    : list (key * cell) :=
  map (fun k => (k, mean (map hs_Value (filter (fun h => key_eqb (hs_key h) k) t))))
      (group_keys (map hs_key t)).

(** A row of weightLogInfo_merged.csv after [standardize_date_format]. *)
Record WeightLog := mkWeightLog {
  wl_Id : Z;
  wl_Date : option string;
  wl_WeightKg : cell;
  wl_WeightPounds : cell;
  wl_Fat : cell;
  wl_BMI : cell;
  wl_IsManualReport : bool;
  wl_LogId : Z
}.

Definition wl_key (w : WeightLog) : key := (wl_Id w, wl_Date w).

(** [convert_minute_weight_to_daily] on one table: Fat, IsManualReport and
    LogId are dropped, then rows (key, AvgWeightKg, AvgWeightPounds, AvgBMI)
    of the per-(Id, Date) means. *)
Definition convert_minute_weight_to_daily (t : list WeightLog)
    : list (key * cell * cell * cell) :=
  map (fun k =>
         let g := filter (fun w => key_eqb (wl_key w) k) t in
         (k, mean (map wl_WeightKg g), mean (map wl_WeightPounds g), mean (map wl_BMI g)))
      (group_keys (map wl_key t)).

Definition nonnegb (c : cell) : bool :=
  match c with Some x => Qle_bool 0 x | None => true end.

(** Sample readings: user 1 on 2016-04-12 at 60, 80 and NaN; user 2 on the
    same day at 70. *)
Definition sample_seconds : list HeartRateSecond :=
  [mkHeartRateSecond 1 (Some "2016-04-12"%string) (qz 60);
   mkHeartRateSecond 1 (Some "2016-04-12"%string) (qz 80);
   mkHeartRateSecond 2 (Some "2016-04-12"%string) (qz 70);
   mkHeartRateSecond 1 (Some "2016-04-12"%string) None].

Definition sample_weights : list WeightLog :=
  [mkWeightLog 1 (Some "2016-04-12"%string) (qz 80) (qz 176) None (qz 25) true 7;
   mkWeightLog 1 (Some "2016-04-12"%string) (qz 81) (qz 178) None None false 8].

(** User 1 has a weight on one of two days; user 2 has none. *)
Definition impute_table : Table :=
  [set_AvgWeightKg (sample_row 1 (qz 8000) (qz 2000) None None None) (qz 70);
   sample_row 1 (qz 9000) (qz 2100) None None None;
   sample_row 2 (qz 7000) (qz 1900) None None None].

(** ** Parts of analysis.py *)

(** [categorize_activity] inside [segment_users_by_activity]; a NaN step
    count fails both comparisons. *)
Definition categorize_activity (steps : cell) : string :=
  match steps with
  | Some s =>
      if Qle_bool 10000 s then "Highly Active"
      else if Qle_bool 5000 s then "Moderately Active"
      else "Low Activity"
  | None => "Low Activity"
  end%string.

(** [segment_users_by_activity]: each row with its ActivityLevel. *)
Definition segment_users_by_activity (t : Table) : list (Row * string) :=
  map (fun r => (r, categorize_activity (TotalSteps r))) t.

(** The order of the three levels, low to high. *)
Definition activity_rank (level : string) : nat :=
  if String.eqb level "Highly Active" then 2
  else if String.eqb level "Moderately Active" then 1 else 0.

(** Number of values equal to [v]. *)
Fixpoint count_eq (v : Q) (xs : list Q) : nat :=
  match xs with
  | [] => 0
  | x :: xs' => (if Qeq_bool x v then 1 else 0) + count_eq v xs'
  end.

(** The distinct values, each at its first occurrence. *)
Fixpoint distinct_Q (xs : list Q) : list Q :=
  match xs with
  | [] => []
  | x :: xs' => x :: filter (fun y => negb (Qeq_bool y x)) (distinct_Q xs')
  end.

(** [Series.value_counts(normalize=True) * 100]: for each distinct non-NaN
    value, its share of the non-NaN values in percent.  pandas sorts the
    result by count; the list here is in first-occurrence order. *)
Definition value_counts_normalized (cs : list cell) : list (Q * Q) :=
  let xs := present cs in
  map (fun v => (v, inject_Z (Z.of_nat (count_eq v xs))
                      / inject_Z (Z.of_nat (List.length xs)) * 100))
      (distinct_Q xs).

Definition segment_users_by_sleep_tracking (t : Table) : list (Q * Q) :=
  value_counts_normalized (map HasSleepData t).

Definition segment_users_by_heart_rate_tracking (t : Table) : list (Q * Q) :=
  value_counts_normalized (map HasHeartRateData t).

(** [segment_users_by_weight_tracking]: "Weight Tracking" and "BMI
    Tracking". *)
Definition segment_users_by_weight_tracking (t : Table) : list (Q * Q) * list (Q * Q) :=
  (value_counts_normalized (map HasWeightData t), value_counts_normalized (map HasBMIData t)).

(** * Lemmas *)

Lemma key_eqb_true (a b : key) : key_eqb a b = true <-> a = b.
Proof.
  destruct a as [i d], b as [j e]; unfold key_eqb; simpl.
  rewrite andb_true_iff, Z.eqb_eq.
  destruct d as [d|], e as [e|]; simpl;
    try rewrite String.eqb_eq; split; intros H; intuition congruence.
Qed.

Lemma key_eqb_refl (a : key) : key_eqb a a = true.
Proof. apply key_eqb_true; reflexivity. Qed.

Lemma key_eqb_sym (a b : key) : key_eqb a b = key_eqb b a.
Proof.
  destruct (key_eqb a b) eqn:E1, (key_eqb b a) eqn:E2; auto.
  - apply key_eqb_true in E1; subst; rewrite key_eqb_refl in E2; discriminate.
  - apply key_eqb_true in E2; subst; rewrite key_eqb_refl in E1; discriminate.
Qed.

Lemma filter_length_le {A} (f : A -> bool) (l : list A) :
  (List.length (filter f l) <= List.length l)%nat.
Proof. induction l as [|x l IH]; simpl; [lia|]; destruct (f x); simpl; lia. Qed.

Lemma filter_filter_andb {A} (f g : A -> bool) (l : list A) :
  filter f (filter g l) = filter (fun x => g x && f x) l.
Proof.
  induction l as [|x l IH]; simpl; [reflexivity|].
  destruct (g x); simpl; [destruct (f x); simpl|]; rewrite IH; reflexivity.
Qed.

Lemma filter_none {A} (f : A -> bool) (l : list A) :
  (forall x, In x l -> f x = false) -> filter f l = [].
Proof.
  induction l as [|x l IH]; simpl; intros H; [reflexivity|].
  rewrite H by auto; apply IH; auto.
Qed.

Section LeftJoinFacts.
Context {A B : Type} (ka : A -> key) (kb : B -> key).

Lemma left_join_length_ge (l : list A) (r : list B) :
  (List.length l <= List.length (left_join ka kb l r))%nat.
Proof.
  induction l as [|a l IH]; simpl; [lia|].
  rewrite length_app; destruct (matches ka kb r a); simpl; lia.
Qed.

Lemma left_join_single (l : list A) (r : list B) :
  (forall a, In a l -> (List.length (matches ka kb r a) <= 1)%nat) ->
  left_join ka kb l r = map (fun a => (a, hd_error (matches ka kb r a))) l.
Proof.
  induction l as [|a l IH]; simpl; intros H; [reflexivity|].
  rewrite IH by auto.
  specialize (H a (or_introl eq_refl)).
  destruct (matches ka kb r a) as [|b [|b' ms]]; simpl in *;
    [reflexivity | reflexivity | lia].
Qed.

Lemma left_join_length_eq (l : list A) (r : list B) :
  (forall a, In a l -> (List.length (matches ka kb r a) <= 1)%nat) ->
  List.length (left_join ka kb l r) = List.length l.
Proof. intros H; rewrite left_join_single by exact H; apply length_map. Qed.
Lemma matches_In (r : list B) (a : A) (b : B) :
  In b (matches ka kb r a) <-> In b r /\ kb b = ka a.
Proof.
  unfold matches; rewrite filter_In, key_eqb_true; split; intros [H1 H2]; auto.
Qed.

Lemma flat_map_pairs {C} (F : A -> list C) (a : A) (ms : list B) :
  flat_map (fun p => F (fst p)) (map (fun b => (a, Some b)) ms) =
  List.concat (repeat (F a) (List.length ms)).
Proof. induction ms as [|b ms IH]; simpl; [reflexivity | rewrite IH; reflexivity]. Qed.

(** A left merge repeats each left row once per matching right row, or
    once when none matches. *)
Lemma flat_map_left_join {C} (F : A -> list C) (l : list A) (r : list B) :
  flat_map (fun p => F (fst p)) (left_join ka kb l r) =
  flat_map (fun a => List.concat (repeat (F a) (Nat.max 1 (List.length (matches ka kb r a))))) l.
Proof.
  induction l as [|a l IH]; simpl; [reflexivity|].
  rewrite flat_map_app, IH; f_equal.
  destruct (matches ka kb r a) as [|b ms]; [reflexivity|].
  exact (flat_map_pairs F a (b :: ms)).
Qed.

Lemma flat_map_left_join_fst {C} (G : A * option B -> list C) (F : A -> list C)
    (l : list A) (r : list B) :
  (forall p, G p = F (fst p)) ->
  flat_map G (left_join ka kb l r) =
  flat_map (fun a => List.concat (repeat (F a) (Nat.max 1 (List.length (matches ka kb r a))))) l.
Proof.
  intros HG; rewrite <- flat_map_left_join; apply flat_map_ext; exact HG.
Qed.

Lemma left_join_sound (l : list A) (r : list B) (a : A) (o : option B) :
  In (a, o) (left_join ka kb l r) ->
  In a l /\ match o with
            | Some b => In b r /\ kb b = ka a
            | None => forall b, In b r -> kb b <> ka a
            end.
Proof.
  unfold left_join; intros H; apply in_flat_map in H as [a0 [Ha0 H]].
  destruct (matches ka kb r a0) as [|b0 ms] eqn:E.
  - destruct H as [H|[]]; injection H as -> <-; split; [exact Ha0|].
    intros b Hb Hk; assert (Hm : In b (matches ka kb r a)) by (apply matches_In; auto).
    rewrite E in Hm; contradiction.
  - apply in_map_iff in H as [b' [Hb Hin]]; injection Hb as -> <-.
    rewrite <- E in Hin; apply matches_In in Hin; auto.
Qed.
End LeftJoinFacts.

(** A table whose keys are distinct matches any key at most once. *)
Lemma matches_unique_keys {A B : Type} (ka : A -> key) (r : list (key * B)) (a : A) :
  NoDup (map fst r) -> (List.length (matches ka fst r a) <= 1)%nat.
Proof.
  unfold matches; induction r as [|[k b] r IH]; simpl; intros Hn; [lia|].
  inversion Hn as [|? ? Hnin Hn']; subst.
  destruct (key_eqb (ka a) k) eqn:E; simpl; [|apply IH; exact Hn'].
  apply key_eqb_true in E; subst.
  rewrite filter_none; [simpl; lia|].
  intros [k' b'] Hin; simpl.
  destruct (key_eqb (ka a) k') eqn:E'; [|reflexivity].
  apply key_eqb_true in E'; subst.
  exfalso; apply Hnin; apply in_map_iff; exists (ka a, b'); auto.
Qed.

Lemma filter_map_comm {A B} (p : B -> bool) (h : A -> B) (l : list A) :
  filter p (map h l) = map h (filter (fun x => p (h x)) l).
Proof.
  induction l as [|x l IH]; simpl; [reflexivity|].
  destruct (p (h x)); simpl; rewrite IH; reflexivity.
Qed.

Lemma group_keys_In (ks : list key) (k : key) :
  In k (group_keys ks) <-> In k ks /\ snd k <> None.
Proof.
  unfold group_keys; rewrite nodup_In, filter_In.
  destruct (snd k); split; intros H; intuition congruence.
Qed.

Lemma group_keys_NoDup (ks : list key) : NoDup (group_keys ks).
Proof. apply NoDup_nodup. Qed.

Lemma lookup_tabulated {V} (f : key -> V) (l : list key) (k : key) :
  NoDup l -> In k l ->
  filter (fun p => key_eqb k (fst p)) (map (fun x => (x, f x)) l) = [(k, f k)].
Proof.
  induction l as [|x l IH]; simpl; intros Hn Hin; [contradiction|].
  inversion Hn as [|? ? Hx Hn']; subst.
  destruct Hin as [<-|Hin].
  - rewrite key_eqb_refl; f_equal.
    apply filter_none; intros [y v] Hy; simpl.
    apply in_map_iff in Hy as [z [Hz Hzl]]; injection Hz as <- <-.
    destruct (key_eqb x z) eqn:E; [|reflexivity].
    apply key_eqb_true in E; subst; contradiction.
  - destruct (key_eqb k x) eqn:E.
    + apply key_eqb_true in E; subst; contradiction.
    + apply IH; assumption.
Qed.

Lemma lookup_tabulated_absent {V} (f : key -> V) (l : list key) (k : key) :
  ~ In k l -> filter (fun p => key_eqb k (fst p)) (map (fun x => (x, f x)) l) = [].
Proof.
  intros Hk; apply filter_none; intros [y v] Hy; simpl.
  apply in_map_iff in Hy as [z [Hz Hzl]]; injection Hz as <- <-.
  destruct (key_eqb k z) eqn:E; [|reflexivity].
  apply key_eqb_true in E; subst; contradiction.
Qed.

Lemma group_size_keys (t : list MinuteSleep) :
  map fst (group_size t) = group_keys (map ms_key t).
Proof. unfold group_size; rewrite map_map; simpl; apply map_id. Qed.

(** The per-key left merge in [convert_minute_sleep_to_daily] finds at
    most one asleep count. *)
Lemma convert_minute_sleep_to_daily_map (t : list MinuteSleep) :
  let asleep := group_size (filter (fun m => Z.eqb (ms_value m) 1) t) in
  convert_minute_sleep_to_daily t =
  map (fun a => match (a, hd_error (matches fst fst asleep a)) with
                | ((k, n), Some (_, c)) => (k, c, n)
                | ((k, n), None) => (k, 0%nat, n)
                end) (group_size t).
Proof.
  intros asleep; unfold convert_minute_sleep_to_daily.
  rewrite left_join_single, map_map; [reflexivity|].
  intros a _; apply matches_unique_keys.
  unfold asleep; rewrite group_size_keys; apply group_keys_NoDup.
Qed.

(** * Claims *)

(** ** Minute-level sleep reduction *)

(** C5: the sleep reducer yields, for every (Id, Date) with a date
    present among the minute rows, exactly one row, whose TotalTimeInBed
    is the number of minute rows of that key and whose TotalMinutesAsleep
    is the number of those with stage value 1 (0 when there are none); it
    yields no row for a key absent from the input; 450 minute rows of which
    300 are asleep give TotalTimeInBed = 450, TotalMinutesAsleep = 300. *)
Theorem minute_sleep_daily_counts :
  (forall (t : list MinuteSleep) (k : key),
     snd k <> None -> In k (map ms_key t) ->
     filter (fun o => key_eqb (fst (fst o)) k) (convert_minute_sleep_to_daily t) =
     [(k, List.length (filter (fun m => key_eqb (ms_key m) k && Z.eqb (ms_value m) 1) t),
          List.length (filter (fun m => key_eqb (ms_key m) k) t))]) /\
  (forall (t : list MinuteSleep) o,
     In o (convert_minute_sleep_to_daily t) ->
     In (fst (fst o)) (map ms_key t) /\ snd (fst (fst o)) <> None) /\
  convert_minute_sleep_to_daily night_minutes =
    [((1%Z, Some "2016-04-01"%string), 300%nat, 450%nat)].
Proof.
  split; [|split].
  - intros t k Hd Hk.
    rewrite convert_minute_sleep_to_daily_map; cbv zeta.
    rewrite filter_map_comm.
    set (asl := fun m => Z.eqb (ms_value m) 1).
    set (G := fun a : key * nat =>
                match (a, hd_error (matches fst fst (group_size (filter asl t)) a)) with
                | ((k0, n), Some (_, c)) => (k0, c, n)
                | ((k0, n), None) => (k0, 0%nat, n)
                end).
    rewrite (filter_ext (fun x => key_eqb (fst (fst (G x))) k)
                        (fun p => key_eqb k (fst p))).
    2:{ intros [k' n]; unfold G; simpl.
        destruct (hd_error _) as [[? ?]|]; simpl; apply key_eqb_sym. }
    unfold group_size.
    rewrite lookup_tabulated;
      [| apply group_keys_NoDup | apply group_keys_In; auto].
    simpl map; unfold G, matches; simpl fst.
    destruct (in_dec key_dec k (group_keys (map ms_key (filter asl t)))) as [Hin|Hnin].
    + unfold group_size; rewrite lookup_tabulated by (apply group_keys_NoDup || exact Hin).
      simpl; rewrite filter_filter_andb.
      do 2 f_equal; f_equal; f_equal; apply filter_ext; intros m; apply andb_comm.
    + unfold group_size; rewrite lookup_tabulated_absent by exact Hnin; simpl.
      rewrite (filter_none (fun m => key_eqb (ms_key m) k && Z.eqb (ms_value m) 1) t);
        [reflexivity|].
      intros m Hm; destruct (key_eqb (ms_key m) k) eqn:E; [|reflexivity].
      simpl; destruct (Z.eqb (ms_value m) 1) eqn:Ea; [|reflexivity]; exfalso.
      apply key_eqb_true in E; apply Hnin, group_keys_In; split; [|exact Hd].
      apply in_map_iff; exists m; split; [exact E|]; apply filter_In; auto.
  - intros t o Ho.
    rewrite convert_minute_sleep_to_daily_map in Ho; cbv zeta in Ho.
    apply in_map_iff in Ho as [[k n] [Ho Hin]].
    assert (Hk : In k (group_keys (map ms_key t))).
    { rewrite <- group_size_keys; apply in_map_iff; exists (k, n); auto. }
    apply group_keys_In in Hk.
    destruct (hd_error _) as [[? ?]|]; subst o; exact Hk.
  - vm_compute; reflexivity.
Qed.

(** ** Merging *)

(** C2 (as the code has it): the left joins never drop an activity row,
    so the merged table has at least as many rows as the concatenated
    activity table; the counts are equal when the concatenated sleep,
    weight and heart-rate tables each have at most one row per
    (Id, Date).  Exactly: the activity rows of the merged table are the
    concatenated activity rows in order, each repeated once per matching
    sleep row (once if none), times once per matching weight row, times
    once per matching heart-rate row; and in every merged row the sleep,
    weight and heart-rate parts are rows with the activity row's key, or
    null only when no row of that table has the key. *)
Theorem merge_all_data_rows {P S W H : Type}
    (act1 act2 : list (key * P)) (sl1 sl2 : list (key * S))
    (wt1 wt2 : list (key * W)) (hr1 hr2 : list (key * H)) :
  (List.length (concat_windows act1 act2)
     <= List.length (merge_all_data act1 act2 sl1 sl2 wt1 wt2 hr1 hr2))%nat /\
  (NoDup (map fst (concat_windows sl1 sl2)) ->
   NoDup (map fst (concat_windows wt1 wt2)) ->
   NoDup (map fst (concat_windows hr1 hr2)) ->
   List.length (merge_all_data act1 act2 sl1 sl2 wt1 wt2 hr1 hr2)
     = List.length (concat_windows act1 act2)) /\
  map (fun p => fst (fst (fst p))) (merge_all_data act1 act2 sl1 sl2 wt1 wt2 hr1 hr2) =
  flat_map (fun a =>
              repeat a (Nat.max 1 (List.length (matches fst fst (concat_windows sl1 sl2) a))
                        * Nat.max 1 (List.length (matches fst fst (concat_windows wt1 wt2) a))
                        * Nat.max 1 (List.length (matches fst fst (concat_windows hr1 hr2) a))))
           (concat_windows act1 act2) /\
  (forall p, In p (merge_all_data act1 act2 sl1 sl2 wt1 wt2 hr1 hr2) ->
     In (fst (fst (fst p))) (concat_windows act1 act2) /\
     match snd (fst (fst p)) with
     | Some s => In s (concat_windows sl1 sl2) /\ fst s = fst (fst (fst (fst p)))
     | None => forall s, In s (concat_windows sl1 sl2) -> fst s <> fst (fst (fst (fst p)))
     end /\
     match snd (fst p) with
     | Some w => In w (concat_windows wt1 wt2) /\ fst w = fst (fst (fst (fst p)))
     | None => forall w, In w (concat_windows wt1 wt2) -> fst w <> fst (fst (fst (fst p)))
     end /\
     match snd p with
     | Some h => In h (concat_windows hr1 hr2) /\ fst h = fst (fst (fst (fst p)))
     | None => forall h, In h (concat_windows hr1 hr2) -> fst h <> fst (fst (fst (fst p)))
     end).
Proof.
  unfold merge_all_data; cbv zeta; split; [|split; [|split]].
  - etransitivity; [|apply left_join_length_ge].
    etransitivity; [|apply left_join_length_ge].
    apply left_join_length_ge.
  - intros Hs Hw Hh.
    rewrite !left_join_length_eq; try reflexivity;
      intros a _; apply matches_unique_keys; assumption.
  - assert (Hm : forall (X Y : Type) (f : X -> Y) l, map f l = flat_map (fun x => [f x]) l)
      by (intros X Y f l; induction l as [|x l IH]; simpl; [|rewrite IH]; reflexivity).
    rewrite Hm.
    rewrite (flat_map_left_join_fst _ _ _ (fun x => [fst (fst x)])) by reflexivity.
    rewrite (flat_map_left_join_fst _ _ _
      (fun y => List.concat (repeat [fst y]
         (Nat.max 1 (List.length (matches fst fst (concat_windows hr1 hr2) (fst y)))))))
      by reflexivity.
    rewrite (flat_map_left_join_fst _ _ _
      (fun a => List.concat (repeat (List.concat (repeat [a]
         (Nat.max 1 (List.length (matches fst fst (concat_windows hr1 hr2) a)))))
         (Nat.max 1 (List.length (matches fst fst (concat_windows wt1 wt2) a))))))
      by reflexivity.
    apply flat_map_ext; intros a.
    assert (Hc : forall (x : key * P) n m,
               List.concat (repeat (repeat x n) m) = repeat x (m * n)).
    { intros x n m; induction m as [|m IH]; simpl; [reflexivity|].
      rewrite IH, <- repeat_app; reflexivity. }
    change [a] with (repeat a 1); rewrite !Hc; f_equal; lia.
  - intros [[[a os] ow] oh] Hp; cbn [fst snd].
    apply left_join_sound in Hp as [Hp Hoh].
    apply left_join_sound in Hp as [Hp How].
    apply left_join_sound in Hp as [Ha Hos].
    cbn [fst snd] in *; split; [exact Ha|].
    split; [|split]; [destruct os | destruct ow | destruct oh]; auto.
Qed.

(** Witness of [merge_all_data_rows]: one activity row and one row of each
    other kind on the same day. *)
Lemma merge_all_data_rows_witness :
  List.length (merge_all_data [] [(day_key, tt)] [] [(day_key, 1%nat)]
                 [(day_key, 2%nat)] [] [] [(day_key, 3%nat)]) = 1%nat.
Proof.
  apply (proj1 (proj2 (merge_all_data_rows [] [(day_key, tt)] [] [(day_key, 1%nat)]
                  [(day_key, 2%nat)] [] [] [(day_key, 3%nat)])));
    vm_compute; repeat constructor; simpl; intuition discriminate.
Defined.

(** C2 fails: a day present in both sleep windows (the 3.12 window's
    minute-sleep data runs into 2016-04-12) duplicates its activity row. *)
Lemma merge_all_data_duplicate_key :
  List.length (merge_all_data [] [(day_key, tt)] [(day_key, 1%nat)] [(day_key, 2%nat)]
                 ([] : list (key * nat)) [] ([] : list (key * nat)) [])
  <> List.length (concat_windows [] [(day_key, tt)]).
Proof. vm_compute; discriminate. Qed.

(** Witness of [minute_sleep_daily_counts] on the 450-minute night. *)
Lemma minute_sleep_daily_counts_witness :
  filter (fun o => key_eqb (fst (fst o)) (1%Z, Some "2016-04-01"%string))
         (convert_minute_sleep_to_daily night_minutes) =
  [((1%Z, Some "2016-04-01"%string),
    List.length (filter (fun m => key_eqb (ms_key m) (1%Z, Some "2016-04-01"%string)
                                  && Z.eqb (ms_value m) 1) night_minutes),
    List.length (filter (fun m => key_eqb (ms_key m) (1%Z, Some "2016-04-01"%string))
                        night_minutes))].
Proof.
  apply (proj1 minute_sleep_daily_counts night_minutes (1%Z, Some "2016-04-01"%string));
    [discriminate | vm_compute; left; reflexivity].
Defined.

(** ** Row-level facts of the cleaning stages *)

Lemma rint_lower (y : Q) (a : Z) : inject_Z a <= y -> (a <= rint y)%Z.
Proof.
  intros Ha; unfold rint.
  assert (Han : (a <= Qfloor y)%Z)
    by (rewrite <- (Qfloor_Z a); apply Qfloor_resp_le; exact Ha).
  destruct (Qltb _ _); [lia|]; destruct (Qltb _ _); [lia|];
    destruct (Z.even _); lia.
Qed.

Lemma rint_upper (y : Q) (b : Z) : y <= inject_Z b -> (rint y <= b)%Z.
Proof.
  intros Hb; unfold rint.
  set (n := Qfloor y).
  assert (Hn1 : inject_Z n <= y) by apply Qfloor_le.
  assert (Hnb : (n <= b)%Z)
    by (unfold n; rewrite <- (Qfloor_Z b); apply Qfloor_resp_le; exact Hb).
  assert (Hhalf : (1 # 2) <= y - inject_Z n -> (n + 1 <= b)%Z).
  { intros Hf; destruct (Z_le_gt_dec (n + 1) b) as [|Hgt]; [assumption|].
    assert (Hbn : inject_Z b <= inject_Z n) by (rewrite <- Zle_Qle; lia).
    lra. }
  unfold Qltb; destruct (Qle_bool (1 # 2) (y - inject_Z n)) eqn:E1; simpl;
    [|lia].
  apply Qle_bool_iff in E1.
  destruct (Qle_bool (y - inject_Z n) (1 # 2)); simpl;
    [destruct (Z.even n)|]; specialize (Hhalf E1); lia.
Qed.

Lemma round2_nonneg (x : Q) : 0 <= x -> 0 <= round2 x.
Proof.
  intros Hx; unfold round2.
  assert (Hz : (0 <= rint (x * 100))%Z) by (apply rint_lower; unfold inject_Z; lra).
  rewrite Zle_Qle in Hz.
  unfold Qdiv; replace (/ 100) with (1 # 100) by reflexivity.
  change (inject_Z 0) with 0 in Hz; lra.
Qed.

Lemma round2_range (x : Q) : 30 <= x <= 250 -> 30 <= round2 x <= 250.
Proof.
  intros [Hl Hu]; unfold round2.
  assert (Hz1 : (3000 <= rint (x * 100))%Z)
    by (apply rint_lower; unfold inject_Z; lra).
  assert (Hz2 : (rint (x * 100) <= 25000)%Z)
    by (apply rint_upper; unfold inject_Z; lra).
  rewrite Zle_Qle in Hz1, Hz2.
  unfold Qdiv; replace (/ 100) with (1 # 100) by reflexivity.
  unfold inject_Z at 1 in Hz1; unfold inject_Z at 2 in Hz2.
  split; lra.
Qed.

Lemma scrub_nonneg (c : cell) : nonneg_or_null (scrub c).
Proof.
  destruct c as [x|]; simpl; [|exact I].
  destruct (Qltb x 0) eqn:E; simpl; [exact I|].
  unfold Qltb in E; apply negb_false_iff, Qle_bool_iff in E; exact E.
Qed.

Lemma hr_ok_clean_cell (c : cell) : hr_ok c -> hr_ok (option_map round2 (scrub c)).
Proof.
  intros [->|[v [-> Hv]]]; simpl; [left; reflexivity|].
  destruct (Qltb v 0) eqn:E.
  - unfold Qltb in E; apply negb_true_iff in E.
    rewrite (proj2 (Qle_bool_iff 0 v)) in E by lra; discriminate.
  - right; exists (round2 v); split; [reflexivity|]; apply round2_range; exact Hv.
Qed.

Lemma hr_plausible_ok (c : cell) : hr_plausible c = true -> hr_ok c.
Proof.
  unfold hr_plausible, within; destruct c as [v|]; simpl; [|left; reflexivity].
  rewrite andb_true_iff, !Qle_bool_iff; intros H; right; exists v; auto.
Qed.

Lemma Qltb_pos_neq0 (d : Q) : Qltb 0 d = true -> Qeq_bool d 0 = false.
Proof.
  unfold Qltb; intros H; apply negb_true_iff in H.
  destruct (Qeq_bool d 0) eqn:E; [|reflexivity].
  apply Qeq_bool_iff in E.
  rewrite (proj2 (Qle_bool_iff d 0)) in H by (rewrite E; apply Qle_refl).
  discriminate.
Qed.

Lemma map_numeric_Forall (Pin Pout : cell -> Prop) (fi f : cell -> cell) (r : Row) :
  (forall c, Pin c -> Pout (fi c)) -> (forall c, Pin c -> Pout (f c)) ->
  Forall Pin (numeric_cells r) -> Forall Pout (numeric_cells (map_numeric fi f r)).
Proof.
  intros Hfi Hf H; destruct r; unfold numeric_cells in *; simpl in *.
  repeat (rewrite Forall_app in H || rewrite Forall_cons_iff in H).
  destruct SedentaryActiveDistance0, AvgWeightPounds0; simpl in *;
    repeat (rewrite Forall_app || rewrite Forall_cons_iff);
    repeat (rewrite Forall_cons_iff in H);
    intuition auto using Forall_nil;
    (apply Forall_map; eapply Forall_impl; [|eassumption]; auto).
Qed.

Lemma fold_iqr_incl (cols : list (Row -> cell)) (t : Table) (r : Row) :
  In r (fold_left iqr_step cols t) -> In r t.
Proof.
  revert t; induction cols as [|col cols IH]; simpl; intros t H; [exact H|].
  apply IH in H; unfold iqr_step in H; apply filter_In in H; apply H.
Qed.

Lemma fold_iqr_length (cols : list (Row -> cell)) (t : Table) :
  (List.length (fold_left iqr_step cols t) <= List.length t)%nat.
Proof.
  revert t; induction cols as [|col cols IH]; simpl; intros t; [lia|].
  etransitivity; [apply IH|]; apply filter_length_le.
Qed.

Lemma drop_duplicates_length (seen : list Row) (t : Table) :
  (List.length (drop_duplicates_aux seen t) <= List.length t)%nat.
Proof.
  revert seen; induction t as [|r t IH]; simpl; intros seen; [lia|].
  destruct (existsb _ _); simpl; [specialize (IH seen) | specialize (IH (r :: seen))]; lia.
Qed.

(** ** Outlier rejection and heart rate *)

(** C1 (as the code has it): [handle_outliers] keeps a row only as it came
    in, with just HasHeartRateData assigned, and only when its AvgHeartRate
    is null or in [30, 250]: a row with an AvgHeartRate outside the range
    is dropped, not kept with a null value.  In the output of [clean_data]
    every AvgHeartRate is null or in [30, 250]. *)
Theorem handle_outliers_heart_rate :
  (forall (t : Table) (r : Row), In r (handle_outliers t) ->
     (exists r0, In r0 t /\
                 r = set_HasHeartRateData r0 (flag (notna (AvgHeartRate r0)))) /\
     hr_ok (AvgHeartRate r)) /\
  (forall (t : Table) (r : Row), In r (clean_data t) -> hr_ok (AvgHeartRate r)).
Proof.
  assert (Hout : forall (t : Table) (r : Row), In r (handle_outliers t) ->
     (exists r0, In r0 t /\
                 r = set_HasHeartRateData r0 (flag (notna (AvgHeartRate r0)))) /\
     hr_ok (AvgHeartRate r)).
  { intros t r H; unfold handle_outliers in H.
    apply in_map_iff in H as [r0 [<- H]]; apply filter_In in H as [H Hhr].
    split; [exists r0; split; [eapply fold_iqr_incl; exact H | reflexivity]|].
    apply hr_plausible_ok; exact Hhr. }
  split; [exact Hout|].
  intros t r H; unfold clean_data, round_decimal_values, handle_negative_values,
    drop_unnecessary_columns, add_derived_metrics in H.
  apply in_map_iff in H as [r1 [<- H]].
  apply in_map_iff in H as [r2 [<- H]].
  apply in_map_iff in H as [r3 [<- H]].
  apply in_map_iff in H as [r4 [<- H]].
  apply Hout in H as [_ Hr4]; simpl.
  apply hr_ok_clean_cell; exact Hr4.
Qed.

(** Witness of [handle_outliers_heart_rate]: the cleaned population of
    daily step counts keeps a first row whose heart rate is null. *)
Lemma handle_outliers_heart_rate_witness :
  hr_ok (AvgHeartRate (hd (sample_row 0 None None None None None) (clean_data steps_table))).
Proof.
  apply (proj2 handle_outliers_heart_rate steps_table); vm_compute; left; reflexivity.
Defined.

(** C1 fails: a row whose AvgHeartRate is 20 does not survive
    [handle_outliers] with a null heart rate; it is dropped. *)
Lemma handle_outliers_drops_low_heart_rate :
  ~ (exists r, In r (handle_outliers low_hr_table) /\ Id r = qz 1 /\ AvgHeartRate r = None).
Proof. intros [r [H _]]; vm_compute in H; exact H. Qed.

(** C4 (as the code has it): each pass of the loop in [handle_outliers]
    keeps exactly the rows whose value is null or within the Tukey bounds
    [Q1 - 1.5 IQR, Q3 + 1.5 IQR] computed over all rows it receives (not
    per user), so TotalSteps is bounded over the whole input and Calories,
    VeryActiveMinutes and TotalDistance over the rows that survived the
    columns before them; on the TotalSteps population [1000, 2000, 3000,
    4000, 100000], Q1 = 2000, Q3 = 4000, the bounds are [-1000, 7000], the
    row with 100000 is removed and the other four are kept. *)
Theorem handle_outliers_tukey_sequential :
  (forall (t : Table) (col : Row -> cell) (r : Row),
     In r (iqr_step t col) <->
     In r t /\
     (col r = None \/
      exists v lo hi, col r = Some v /\ tukey_bounds col t = Some (lo, hi) /\
                      lo <= v <= hi)) /\
  (forall t : Table,
     handle_outliers t =
     map (fun r => set_HasHeartRateData r (flag (notna (AvgHeartRate r))))
       (filter (fun r => hr_plausible (AvgHeartRate r))
          (iqr_step (iqr_step (iqr_step (iqr_step t TotalSteps) Calories)
                       VeryActiveMinutes) TotalDistance))) /\
  cell_eqb (quantile (1 # 4) (map TotalSteps steps_table)) (qz 2000) = true /\
  cell_eqb (quantile (3 # 4) (map TotalSteps steps_table)) (qz 4000) = true /\
  (exists lo hi, tukey_bounds TotalSteps steps_table = Some (lo, hi) /\
                 lo == -1000 /\ hi == 7000) /\
  map TotalSteps (handle_outliers steps_table) = [qz 1000; qz 2000; qz 3000; qz 4000].
Proof.
  split; [|split; [|split; [|split; [|split]]]].
  - intros t col r; unfold iqr_step; rewrite filter_In; unfold within.
    destruct (col r) as [v|]; simpl.
    + destruct (tukey_bounds col t) as [[lo hi]|]; simpl.
      * rewrite andb_true_iff, !Qle_bool_iff; split.
        -- intros [Hin Hb]; split; [exact Hin|]; right; exists v, lo, hi; auto.
        -- intros [Hin [Hn|[v' [lo' [hi' [Hv [Hb Hr]]]]]]]; [discriminate|].
           injection Hv as <-; injection Hb as <- <-; auto.
      * split; [intros [_ H]; discriminate|].
        intros [_ [Hn|[v' [lo' [hi' [_ [Hb _]]]]]]]; discriminate.
    + split; [intros [Hin _]; auto|intros [Hin _]; auto].
  - intros t; reflexivity.
  - vm_compute; reflexivity.
  - vm_compute; reflexivity.
  - do 2 eexists; split; [vm_compute; reflexivity|].
    split; vm_compute; reflexivity.
  - vm_compute; reflexivity.
Qed.

(** C4 fails: with steps [1, 1, 1, 1, 100] and calories [10, 10, 10, 14,
    14], whole-population bounds for each column would keep four rows (only
    the 100-step row is out of its TotalSteps bounds), but [handle_outliers]
    computes the Calories bounds over the four surviving rows and also drops
    the row with 14 calories among them. *)
Lemma handle_outliers_not_independent :
  List.length (handle_outliers sequential_table)
  <> List.length (tukey_independent sequential_table).
Proof. vm_compute; discriminate. Qed.

(** ** Re-running the cleaner *)

Lemma handle_missing_values_length (t : Table) :
  (List.length (handle_missing_values t) <= List.length t)%nat.
Proof.
  unfold handle_missing_values; cbv zeta; rewrite !length_map.
  apply filter_length_le.
Qed.

Lemma handle_outliers_length (t : Table) :
  (List.length (handle_outliers t) <= List.length t)%nat.
Proof.
  unfold handle_outliers; rewrite length_map.
  etransitivity; [apply filter_length_le | apply fold_iqr_length].
Qed.

Lemma clean_data_length (t : Table) :
  (List.length (clean_data t) <= List.length t)%nat.
Proof.
  unfold clean_data, round_decimal_values, handle_negative_values,
    drop_unnecessary_columns, add_derived_metrics, flag_weight_tracking.
  rewrite !length_map.
  etransitivity; [apply handle_outliers_length|]; rewrite length_map.
  etransitivity; [apply handle_missing_values_length|].
  apply drop_duplicates_length.
Qed.

(** C3 (as the code has it): a run of the cleaner never adds rows, so
    re-running it on its own output returns at most as many rows as the
    first run did; it can return fewer (see
    [clean_data_rerun_drops_rows]). *)
Theorem clean_data_rerun_rows (t : Table) :
  (List.length (clean_data (clean_data t)) <= List.length (clean_data t))%nat /\
  (List.length (clean_data t) <= List.length t)%nat.
Proof. split; apply clean_data_length. Qed.

(** C3 fails: on steps [1, 1, 1, 1, 2, 3] for six users the first run drops
    the 3-step row; on its output of five rows the Tukey bounds of TotalSteps
    shrink to [1, 1] and the second run drops the 2-step row too. *)
Lemma clean_data_rerun_drops_rows :
  clean_data (clean_data rerun_table) <> clean_data rerun_table.
Proof.
  intros H; apply (f_equal (@List.length Row)) in H.
  vm_compute in H; discriminate.
Qed.

(** ** Missing values *)

(** C6: [handle_missing_values] drops exactly the rows whose TotalSteps or
    Calories is null: its rows are, in order, the other rows, with their
    identifying and activity columns unchanged; the row (TotalSteps=12000,
    Calories=400) is kept and the row (TotalSteps=null, Calories=500) is
    dropped. *)
Theorem handle_missing_values_essential :
  (forall t : Table,
     map activity_part (handle_missing_values t) = map activity_part (filter essential t)) /\
  map (fun r => (Id r, TotalSteps r, Calories r)) (handle_missing_values essential_table)
    = [(qz 1, qz 12000, qz 400)].
Proof.
  split.
  - intros t; unfold handle_missing_values; cbv zeta.
    rewrite !map_map; apply map_ext; intros r; reflexivity.
  - vm_compute; reflexivity.
Qed.

(** C9: the steps-to-calories fill in [handle_missing_values] is computed
    and discarded: the Calories column of its output is the Calories column
    of the rows kept by the essential-completeness filter. *)
Theorem handle_missing_values_calories_unchanged (t : Table) :
  map Calories (handle_missing_values t) = map Calories (filter essential t).
Proof.
  unfold handle_missing_values; cbv zeta.
  rewrite !map_map; apply map_ext; intros r; reflexivity.
Qed.

(** ** Derived metrics *)

(** C7: [add_derived_metrics] sets, on every row, SleepEfficiency to
    TotalMinutesAsleep / TotalTimeInBed when TotalTimeInBed > 0 and null
    otherwise, and VeryActiveRatio to VeryActiveDistance / TotalDistance
    when TotalDistance > 0 and null otherwise (a total function: a zero or
    null divisor gives null). *)
Theorem add_derived_metrics_ratios (t : Table) :
  map SleepEfficiency (add_derived_metrics t)
    = map (fun r => guarded_ratio (TotalMinutesAsleep r) (TotalTimeInBed r)) t /\
  map VeryActiveRatio (add_derived_metrics t)
    = map (fun r => guarded_ratio (VeryActiveDistance r) (TotalDistance r)) t /\
  List.length (add_derived_metrics t) = List.length t.
Proof.
  unfold add_derived_metrics; rewrite !map_map, length_map.
  split; [|split; [|reflexivity]]; apply map_ext; intros r; simpl;
    unfold np_where, gt0, guarded_ratio, cell_div.
  - destruct (TotalTimeInBed r) as [d|]; [|reflexivity].
    destruct (Qltb 0 d) eqn:E; [|reflexivity].
    destruct (TotalMinutesAsleep r); [|reflexivity].
    rewrite Qltb_pos_neq0 by exact E; reflexivity.
  - destruct (TotalDistance r) as [d|]; [|reflexivity].
    destruct (Qltb 0 d) eqn:E; [|reflexivity].
    destruct (VeryActiveDistance r); [|reflexivity].
    rewrite Qltb_pos_neq0 by exact E; reflexivity.
Qed.

(** ** Non-negative output *)

(** C8: every numeric cell of every row of the cleaned table is null or
    non-negative: the scrub nulls every negative cell and rounding to two
    decimals maps a non-negative value to a non-negative value. *)
Theorem clean_data_nonneg (t : Table) (r : Row) :
  In r (clean_data t) -> Forall nonneg_or_null (numeric_cells r).
Proof.
  unfold clean_data, round_decimal_values, handle_negative_values; intros H.
  apply in_map_iff in H as [r1 [<- H]].
  apply in_map_iff in H as [r2 [<- _]].
  apply (map_numeric_Forall nonneg_or_null).
  - intros c Hc; exact Hc.
  - intros [x|] Hc; simpl in *; [apply round2_nonneg; exact Hc | exact I].
  - apply (map_numeric_Forall (fun _ => True)); [intros; apply scrub_nonneg ..|].
    apply Forall_forall; intros; exact I.
Qed.

(** Witness of [clean_data_nonneg] on the first cleaned row of the step
    population. *)
Lemma clean_data_nonneg_witness :
  Forall nonneg_or_null
    (numeric_cells (hd (sample_row 0 None None None None None) (clean_data steps_table))).
Proof.
  apply (clean_data_nonneg steps_table); vm_compute; left; reflexivity.
Defined.

(** ** Loading *)

Lemma prefix_append (s1 s2 : string) :
  String.prefix s1 s2 = true <-> exists post, s2 = String.append s1 post.
Proof.
  revert s2; induction s1 as [|a s1 IH]; intros s2.
  - destruct s2; simpl; split; intros; eauto.
  - destruct s2 as [|b s2]; simpl.
    + split; [discriminate|intros [post H]; discriminate].
    + destruct (Ascii.ascii_dec a b) as [<-|Hab].
      * rewrite IH; split; intros [post H]; exists post;
          [rewrite H | injection H]; auto.
      * split; [discriminate|intros [post H]; injection H as H _; congruence].
Qed.

Lemma append_empty (x y : string) : String.append x y = EmptyString -> x = EmptyString /\ y = EmptyString.
Proof. destruct x, y; simpl; intros H; try discriminate; auto. Qed.

Lemma contains_spec (sub s : string) :
  contains sub s = true <-> exists pre post, s = String.append pre (String.append sub post).
Proof.
  induction s as [|c s IH].
  - change (contains sub EmptyString) with (String.prefix sub EmptyString).
    rewrite prefix_append; split.
    + intros [post H]; exists EmptyString, post; exact H.
    + intros [pre [post H]]; symmetry in H; apply append_empty in H as [-> H].
      exists post; symmetry; exact H.
  - change (contains sub (String c s))
      with (String.prefix sub (String c s) || contains sub s).
    rewrite orb_true_iff, prefix_append, IH; split.
    + intros [[post H]|[pre [post H]]].
      * exists EmptyString, post; exact H.
      * exists (String c pre), post; rewrite H; reflexivity.
    + intros [[|c' pre] [post H]]; simpl in H.
      * left; exists post; exact H.
      * right; injection H as _ H; exists pre, post; exact H.
Qed.

Lemma dict_set_keeps {V : Type} (k : string) (v : V) (d : list (string * V)) (k' : string) :
  In k' (map fst d) -> In k' (map fst (dict_set k v d)).
Proof.
  intros H; unfold dict_set; simpl.
  destruct (String.eqb k k') eqn:E; [left; apply String.eqb_eq; exact E|right].
  apply in_map_iff in H as [p [<- Hp]]; apply in_map_iff; exists p; split; [reflexivity|].
  apply filter_In; split; [exact Hp|]; rewrite E; reflexivity.
Qed.

Lemma load_fold_keeps (l : list path) (d : list (string * path)) (k : string) :
  In k (map fst d) ->
  In k (map fst (fold_left (fun dfs f => dict_set (file_key f) f dfs) l d)).
Proof.
  revert d; induction l as [|f l IH]; simpl; intros d H; [exact H|].
  apply IH, dict_set_keeps, H.
Qed.

Lemma load_fold_In (l : list path) (d : list (string * path)) (f : path) :
  In f l -> In (file_key f) (map fst (fold_left (fun dfs f => dict_set (file_key f) f dfs) l d)).
Proof.
  revert d; induction l as [|g l IH]; simpl; intros d H; [contradiction|].
  destruct H as [<-|H]; [|apply IH; exact H].
  apply load_fold_keeps; simpl; left; reflexivity.
Qed.

(** C10: [load_data] tags a file "3_12" exactly when its parent folder's
    name contains "3.12.16-4.11.16" and "4_12" exactly when it does not,
    whatever else the folder is called; every kept file is loaded under
    "<stem>_<tag>". *)
Theorem load_data_window_tag :
  (forall folder : string,
     time_period folder = "3_12"%string <->
     exists pre post, folder = String.append pre (String.append "3.12.16-4.11.16" post)) /\
  (forall folder : string,
     time_period folder = "4_12"%string <->
     ~ exists pre post, folder = String.append pre (String.append "3.12.16-4.11.16" post)) /\
  (forall (fs : list path) (f : path),
     In f fs -> in_strings (path_name f) KEEP_FILES = true ->
     In (file_key f) (map fst (load_data fs))) /\
  time_period "Fitabase Data 4.12.16-5.12.16" = "4_12"%string /\
  time_period "misc" = "4_12"%string.
Proof.
  split; [|split; [|split; [|split]]].
  - intros folder; rewrite <- contains_spec; unfold time_period.
    destruct (contains _ folder); split; intros H; congruence.
  - intros folder; rewrite <- contains_spec; unfold time_period.
    destruct (contains _ folder); split; intros H; congruence.
  - intros fs f Hf Hk; unfold load_data.
    apply load_fold_In, filter_In; split; assumption.
  - reflexivity.
  - reflexivity.
Qed.

(** Witness of [load_data_window_tag]: the activity file of the 4.12
    folder is loaded under its "4_12" key. *)
Lemma load_data_window_tag_witness :
  In (file_key april_activity_file) (map fst (load_data sample_files)).
Proof.
  apply (proj1 (proj2 (proj2 load_data_window_tag)) sample_files april_activity_file);
    [simpl; right; left; reflexivity | reflexivity].
Defined.

(** * Further properties of data_processing.py *)

(** ** Deduplication *)

Lemma cell_eqb_refl (c : cell) : cell_eqb c c = true.
Proof. destruct c; simpl; [apply Qeq_bool_refl | reflexivity]. Qed.

Lemma row_eqb_refl (r : Row) : row_eqb r r = true.
Proof.
  assert (Hcs : forall l, cells_eqb l l = true)
    by (induction l; simpl; [reflexivity | rewrite cell_eqb_refl; assumption]).
  assert (Ho : forall o, ocell_eqb o o = true)
    by (destruct o; simpl; [apply cell_eqb_refl | reflexivity]).
  assert (Hd : forall o, odate_eqb o o = true)
    by (destruct o; simpl; [apply String.eqb_refl | reflexivity]).
  destruct r; unfold row_eqb; simpl.
  rewrite !cell_eqb_refl, Hcs, !Ho, Hd; reflexivity.
Qed.

Lemma drop_duplicates_subset (seen : list Row) (t : Table) (r : Row) :
  In r (drop_duplicates_aux seen t) -> In r t.
Proof.
  revert seen; induction t as [|x t IH]; simpl; intros seen H; [exact H|].
  destruct (existsb (row_eqb x) seen).
  - right; eapply IH; exact H.
  - destruct H as [<-|H]; [left; reflexivity | right; eapply IH; exact H].
Qed.

Lemma drop_duplicates_fresh (seen : list Row) (t : Table) (r : Row) :
  In r (drop_duplicates_aux seen t) -> existsb (row_eqb r) seen = false.
Proof.
  revert seen; induction t as [|x t IH]; simpl; intros seen H; [contradiction|].
  destruct (existsb (row_eqb x) seen) eqn:E; [eapply IH; exact H|].
  destruct H as [<-|H]; [exact E|].
  apply IH in H; simpl in H; apply orb_false_iff in H; apply H.
Qed.

Lemma drop_duplicates_cover (seen : list Row) (t : Table) (r : Row) :
  In r t ->
  (exists s, In s seen /\ row_eqb r s = true) \/
  (exists r', In r' (drop_duplicates_aux seen t) /\ row_eqb r r' = true).
Proof.
  revert seen; induction t as [|x t IH]; simpl; intros seen H; [contradiction|].
  destruct (existsb (row_eqb x) seen) eqn:E.
  - destruct H as [<-|H]; [|apply IH; exact H].
    left; apply existsb_exists in E; exact E.
  - destruct H as [->|H].
    + right; exists r; split; [left; reflexivity | apply row_eqb_refl].
    + destruct (IH (x :: seen) H) as [[s [[->|Hs] Hrs]]|[r' [Hr' Hrr]]].
      * right; exists s; split; [left; reflexivity | exact Hrs].
      * left; exists s; split; assumption.
      * right; exists r'; split; [right; exact Hr' | exact Hrr].
Qed.

Lemma drop_duplicates_pairs (seen : list Row) (t : Table) :
  ForallOrdPairs (fun a b => row_eqb b a = false) (drop_duplicates_aux seen t).
Proof.
  revert seen; induction t as [|x t IH]; simpl; intros seen; [constructor|].
  destruct (existsb (row_eqb x) seen); [apply IH|].
  constructor; [|apply IH].
  apply Forall_forall; intros b Hb.
  apply drop_duplicates_fresh in Hb; simpl in Hb.
  apply orb_false_iff in Hb; apply Hb.
Qed.

Lemma drop_duplicates_keep (seen : list Row) (t : Table) :
  ForallOrdPairs (fun a b => row_eqb b a = false) t ->
  (forall x, In x t -> existsb (row_eqb x) seen = false) ->
  drop_duplicates_aux seen t = t.
Proof.
  revert seen; induction t as [|x t IH]; simpl; intros seen Hp Hs; [reflexivity|].
  inversion Hp as [|? ? Hx Hp']; subst.
  rewrite Hs by (left; reflexivity); f_equal.
  apply IH; [exact Hp'|].
  intros y Hy; simpl; apply orb_false_iff; split.
  - rewrite Forall_forall in Hx; apply Hx, Hy.
  - apply Hs; right; exact Hy.
Qed.

(** [handle_duplicates] keeps only rows of its input, keeps no two rows
    that are equal across every column (NaN equal to NaN), and keeps, for
    every input row, a row equal to it. *)
Theorem handle_duplicates_spec (t : Table) :
  ForallOrdPairs (fun a b => row_eqb b a = false) (handle_duplicates t) /\
  (forall r, In r (handle_duplicates t) -> In r t) /\
  (forall r, In r t -> exists r', In r' (handle_duplicates t) /\ row_eqb r r' = true).
Proof.
  unfold handle_duplicates; split; [|split].
  - apply drop_duplicates_pairs.
  - intros r; apply drop_duplicates_subset.
  - intros r H; destruct (drop_duplicates_cover [] t r H) as [[s [[] _]]|H']; exact H'.
Qed.

(** [handle_duplicates] is idempotent. *)
Theorem handle_duplicates_idempotent (t : Table) :
  handle_duplicates (handle_duplicates t) = handle_duplicates t.
Proof.
  unfold handle_duplicates; apply drop_duplicates_keep;
    [apply drop_duplicates_pairs | reflexivity].
Qed.

(** ** Per-user imputation *)

Lemma present_nil_none {A} (col : A -> cell) (l : list A) :
  present (map col l) = [] -> forall x, In x l -> col x = None.
Proof.
  induction l as [|a l IH]; simpl; intros H x Hx; [contradiction|].
  destruct (col a) eqn:E; simpl in H; [discriminate|].
  destruct Hx as [<-|Hx]; [exact E | apply IH; assumption].
Qed.

Lemma mean_none (cs : list cell) : mean cs = None -> present cs = [].
Proof. unfold mean; destruct (present cs); [reflexivity | discriminate]. Qed.

Lemma impute_per_user (col : Row -> cell) (set : Row -> cell -> Row)
    (Hc : forall r v, col (set r v) = v) (Hi : forall r v, Id (set r v) = Id r)
    (t : Table) (i : Q) :
  In (Some i, None)
     (map (fun r => (Id r, col r))
        (map (fun r => set r (fillna (col r) (user_mean col t (Id r)))) t)) ->
  forall c, In (Some i, c)
     (map (fun r => (Id r, col r))
        (map (fun r => set r (fillna (col r) (user_mean col t (Id r)))) t)) ->
  c = None.
Proof.
  rewrite !map_map; intros H1 c H2.
  apply in_map_iff in H1 as [r [Hr _]]; rewrite Hc, Hi in Hr.
  injection Hr as Hid Hcol; rewrite Hid in Hcol.
  unfold fillna in Hcol; destruct (col r); [discriminate|].
  assert (Hm : present (map col (filter (fun x => cell_eqb (Id x) (Some i)) t)) = [])
    by (apply mean_none; exact Hcol).
  apply in_map_iff in H2 as [r' [Hr' Hin']]; rewrite Hc, Hi in Hr'.
  injection Hr' as Hid' Hc'; subst c; rewrite Hid'.
  rewrite (present_nil_none col _ Hm r').
  - exact Hcol.
  - apply filter_In; split; [exact Hin'|]; rewrite Hid'; simpl; apply Qeq_bool_refl.
Qed.

Lemma pairs_keep {A} (pr : Row -> A) (set : Row -> cell -> Row) (f : Row -> cell)
    (Hs : forall r v, pr (set r v) = pr r) (l : Table) :
  map pr (map (fun r => set r (f r)) l) = map pr l.
Proof. rewrite map_map; apply map_ext; intros r; apply Hs. Qed.

(** [handle_missing_values] fills a missing AvgWeightKg, AvgBMI or
    AvgHeartRate from the same user's other days: if some day of a user
    (a non-null Id) is still null in one of these columns after the stage,
    every day of that user is null in that column, i.e. the user has no
    value for it on any retained day. *)
Theorem handle_missing_values_user_imputation (t : Table) (i : Q) :
  (In (Some i, None) (map (fun r => (Id r, AvgWeightKg r)) (handle_missing_values t)) ->
   forall c, In (Some i, c) (map (fun r => (Id r, AvgWeightKg r)) (handle_missing_values t)) ->
   c = None) /\
  (In (Some i, None) (map (fun r => (Id r, AvgBMI r)) (handle_missing_values t)) ->
   forall c, In (Some i, c) (map (fun r => (Id r, AvgBMI r)) (handle_missing_values t)) ->
   c = None) /\
  (In (Some i, None) (map (fun r => (Id r, AvgHeartRate r)) (handle_missing_values t)) ->
   forall c, In (Some i, c) (map (fun r => (Id r, AvgHeartRate r)) (handle_missing_values t)) ->
   c = None).
Proof.
  unfold handle_missing_values; cbv zeta; split; [|split].
  - rewrite !(pairs_keep (fun r => (Id r, AvgWeightKg r)) set_AvgHeartRate)
      by reflexivity.
    rewrite !(pairs_keep (fun r => (Id r, AvgWeightKg r)) set_AvgBMI) by reflexivity.
    apply impute_per_user; reflexivity.
  - rewrite !(pairs_keep (fun r => (Id r, AvgBMI r)) set_AvgHeartRate) by reflexivity.
    apply impute_per_user; reflexivity.
  - apply impute_per_user; reflexivity.
Qed.

Lemma handle_missing_values_user_imputation_witness :
  In (Some (inject_Z 2), None)
     (map (fun r => (Id r, AvgWeightKg r)) (handle_missing_values impute_table)) /\
  forall c, In (Some (inject_Z 2), c)
     (map (fun r => (Id r, AvgWeightKg r)) (handle_missing_values impute_table)) -> c = None.
Proof.
  assert (H : In (Some (inject_Z 2), None)
     (map (fun r => (Id r, AvgWeightKg r)) (handle_missing_values impute_table)))
    by (vm_compute; right; right; left; reflexivity).
  split; [exact H|].
  apply (proj1 (handle_missing_values_user_imputation impute_table (inject_Z 2))); exact H.
Defined.

(** ** What [clean_data] keeps *)

Lemma Qltb_ge0 (v : Q) : 0 <= v -> Qltb v 0 = false.
Proof.
  intros H; unfold Qltb; apply negb_false_iff, Qle_bool_iff; exact H.
Qed.

Lemma handle_outliers_rows (t : Table) (r : Row) :
  In r (handle_outliers t) ->
  hr_ok (AvgHeartRate r) /\ HasHeartRateData r = flag (notna (AvgHeartRate r)) /\
  exists r0, In r0 t /\ r = set_HasHeartRateData r0 (flag (notna (AvgHeartRate r0))).
Proof.
  unfold handle_outliers; intros H.
  apply in_map_iff in H as [r0 [<- H]]; apply filter_In in H as [H Hp].
  split; [apply hr_plausible_ok; exact Hp|]; split; [reflexivity|].
  exists r0; split; [eapply fold_iqr_incl; exact H | reflexivity].
Qed.

(** In the output of [clean_data], HasHeartRateData is 1 exactly on the
    rows whose AvgHeartRate is present and 0 on the others: the flag set in
    [handle_outliers] survives the later stages (no kept heart rate is
    turned into null by the negative-value or rounding stages). *)
Theorem clean_data_heart_rate_flag (t : Table) (r : Row) :
  In r (clean_data t) -> HasHeartRateData r = flag (notna (AvgHeartRate r)).
Proof.
  unfold clean_data, round_decimal_values, handle_negative_values,
    drop_unnecessary_columns, add_derived_metrics; intros H.
  apply in_map_iff in H as [r1 [<- H]]; apply in_map_iff in H as [r2 [<- H]].
  apply in_map_iff in H as [r3 [<- H]]; apply in_map_iff in H as [r4 [<- H]].
  apply handle_outliers_rows in H as [Hok [Hf _]].
  cbn [map_numeric drop_cols_row set_derived HasHeartRateData AvgHeartRate].
  rewrite Hf; destruct Hok as [E | [v [E Hv]]]; rewrite E; [reflexivity|].
  simpl; rewrite Qltb_ge0 by lra; reflexivity.
Qed.

Lemma clean_data_heart_rate_flag_witness :
  let r := hd (sample_row 0 None None None None None) (clean_data steps_table) in
  In r (clean_data steps_table) /\ HasHeartRateData r = flag (notna (AvgHeartRate r)).
Proof.
  split; [vm_compute; left; reflexivity|].
  apply (clean_data_heart_rate_flag steps_table); vm_compute; left; reflexivity.
Defined.

(** Every row of [clean_data t] comes from a row of [t] with TotalSteps and
    Calories present: it has that row's Date, its Id with a negative value
    nulled, and its TotalSteps and Calories nulled if negative and rounded
    to two decimals; no row is created and these columns are not
    imputed. *)
Theorem clean_data_row_origin (t : Table) (r : Row) :
  In r (clean_data t) ->
  exists r0, In r0 t /\ essential r0 = true /\ Date r = Date r0 /\
    Id r = scrub (Id r0) /\
    TotalSteps r = option_map round2 (scrub (TotalSteps r0)) /\
    Calories r = option_map round2 (scrub (Calories r0)).
Proof.
  unfold clean_data, round_decimal_values, handle_negative_values,
    drop_unnecessary_columns, add_derived_metrics; intros H.
  apply in_map_iff in H as [r1 [<- H]]; apply in_map_iff in H as [r2 [<- H]].
  apply in_map_iff in H as [r3 [<- H]]; apply in_map_iff in H as [r4 [<- H]].
  apply handle_outliers_rows in H as [_ [_ [r5 [H ->]]]].
  unfold flag_weight_tracking in H; apply in_map_iff in H as [r6 [<- H]].
  unfold handle_missing_values in H; cbv zeta in H.
  apply in_map_iff in H as [r7 [<- H]]; apply in_map_iff in H as [r8 [<- H]].
  apply in_map_iff in H as [r9 [<- H]]; apply in_map_iff in H as [r10 [<- H]].
  apply filter_In in H as [H Hess].
  exists r10; repeat split; try reflexivity; [|exact Hess].
  eapply drop_duplicates_subset; exact H.
Qed.

Lemma clean_data_row_origin_witness :
  let r := hd (sample_row 0 None None None None None) (clean_data steps_table) in
  In r (clean_data steps_table) /\
  exists r0, In r0 steps_table /\ essential r0 = true /\ Date r = Date r0 /\
    Id r = scrub (Id r0) /\
    TotalSteps r = option_map round2 (scrub (TotalSteps r0)) /\
    Calories r = option_map round2 (scrub (Calories r0)).
Proof.
  split; [vm_compute; left; reflexivity|].
  apply (clean_data_row_origin steps_table); vm_compute; left; reflexivity.
Defined.

(** ** Rounding and negative values *)

Lemma Qle_bool_compat (a b c : Q) :
  a == b -> Qle_bool c a = Qle_bool c b /\ Qle_bool a c = Qle_bool b c.
Proof.
  intros H; split; apply eq_true_iff_eq; rewrite !Qle_bool_iff; rewrite H; reflexivity.
Qed.

Lemma rint_compat (x y : Q) : x == y -> rint x = rint y.
Proof.
  intros H; unfold rint; cbv zeta.
  assert (Hf : Qfloor x = Qfloor y)
    by (apply Z.le_antisymm; apply Qfloor_resp_le; rewrite H; apply Qle_refl).
  rewrite Hf.
  assert (Hd : x - inject_Z (Qfloor y) == y - inject_Z (Qfloor y)) by (rewrite H; reflexivity).
  unfold Qltb; rewrite (proj1 (Qle_bool_compat _ _ (1 # 2) Hd)),
    (proj2 (Qle_bool_compat _ _ (1 # 2) Hd)); reflexivity.
Qed.

Lemma rint_inject (z : Z) : rint (inject_Z z) = z.
Proof.
  unfold rint; cbv zeta; rewrite Qfloor_Z.
  destruct (Qle_bool (1 # 2) (inject_Z z - inject_Z z)) eqn:E.
  - apply Qle_bool_iff in E; lra.
  - unfold Qltb; rewrite E; reflexivity.
Qed.

Lemma round2_idem (x : Q) : round2 (round2 x) = round2 x.
Proof.
  assert (H : rint (round2 x * 100) = rint (x * 100)).
  { transitivity (rint (inject_Z (rint (x * 100)))); [|apply rint_inject].
    apply rint_compat; unfold round2; rewrite Qmult_comm; apply Qmult_div_r.
    intro Hc; compute in Hc; discriminate. }
  unfold round2 at 1; rewrite H; reflexivity.
Qed.

Lemma round_cell_idem (c : cell) :
  option_map round2 (option_map round2 c) = option_map round2 c.
Proof. destruct c; simpl; [rewrite round2_idem|]; reflexivity. Qed.

(** Rounding to two decimals is idempotent: [round_decimal_values] applied
    to its own output changes nothing. *)
Theorem round_decimal_values_idempotent (t : Table) :
  round_decimal_values (round_decimal_values t) = round_decimal_values t.
Proof.
  unfold round_decimal_values; rewrite map_map; apply map_ext; intros r.
  destruct r as [i d ts td vad sad vam cal oth tma tib kg lb bmi hr hs hw hb hh se var].
  unfold map_numeric; simpl; rewrite !round_cell_idem, map_map.
  f_equal.
  - destruct sad; simpl; [rewrite round_cell_idem|]; reflexivity.
  - apply map_ext; apply round_cell_idem.
  - destruct lb; simpl; [rewrite round_cell_idem|]; reflexivity.
Qed.

Lemma scrub_fixed (c : cell) : nonnegb c = true -> scrub c = c.
Proof.
  destruct c as [x|]; simpl; [|reflexivity]; intros H.
  unfold Qltb; rewrite H; reflexivity.
Qed.

Lemma scrub_nonnegb (c : cell) : nonnegb (scrub c) = true.
Proof.
  pose proof (scrub_nonneg c) as H; destruct (scrub c) as [x|]; simpl in *;
    [apply Qle_bool_iff; exact H | reflexivity].
Qed.

Lemma map_scrub_fixed (l : list cell) : forallb nonnegb l = true -> map scrub l = l.
Proof.
  induction l as [|c l IH]; simpl; [reflexivity|]; intros H.
  apply andb_true_iff in H as [H1 H2]; rewrite scrub_fixed, IH by assumption; reflexivity.
Qed.

Lemma scrub_row_fixed (r : Row) :
  forallb nonnegb (numeric_cells r) = true -> map_numeric scrub scrub r = r.
Proof.
  destruct r as [i d ts td vad sad vam cal oth tma tib kg lb bmi hr hs hw hb hh se var].
  unfold numeric_cells; simpl; intros H.
  rewrite !forallb_app in H; simpl in H.
  repeat match goal with H : _ && _ = true |- _ =>
    apply andb_true_iff in H as [? H] end.
  unfold map_numeric; simpl.
  destruct sad as [c|], lb as [c'|]; simpl in *;
    rewrite ?forallb_app in H; simpl in H;
    repeat match goal with H : _ && _ = true |- _ =>
      apply andb_true_iff in H as [? H] end;
    repeat rewrite scrub_fixed by assumption;
    rewrite ?map_scrub_fixed by assumption; reflexivity.
Qed.

Lemma scrub_row_nonneg (r : Row) :
  forallb nonnegb (numeric_cells (map_numeric scrub scrub r)) = true.
Proof.
  destruct r as [i d ts td vad sad vam cal oth tma tib kg lb bmi hr hs hw hb hh se var].
  unfold numeric_cells, map_numeric; simpl.
  rewrite !forallb_app; simpl; rewrite !scrub_nonnegb; simpl.
  assert (Hm : forallb nonnegb (map scrub oth) = true)
    by (induction oth; simpl; [reflexivity | rewrite scrub_nonnegb; exact IHoth]).
  destruct sad, lb; simpl; rewrite ?forallb_app; simpl; rewrite ?scrub_nonnegb, Hm;
    reflexivity.
Qed.

(** [handle_negative_values] leaves a table without negative numeric
    values unchanged, and its output is such a table, so the stage is
    idempotent. *)
Theorem handle_negative_values_fixed (t : Table) :
  (forallb (fun r => forallb nonnegb (numeric_cells r)) t = true ->
   handle_negative_values t = t) /\
  handle_negative_values (handle_negative_values t) = handle_negative_values t.
Proof.
  assert (Hfix : forall u, forallb (fun r => forallb nonnegb (numeric_cells r)) u = true ->
                   handle_negative_values u = u).
  { unfold handle_negative_values; induction u as [|r u IH]; simpl; [reflexivity|].
    intros H; apply andb_true_iff in H as [H1 H2].
    rewrite scrub_row_fixed, IH by assumption.
    reflexivity. }
  split; [exact (Hfix t)|]; apply Hfix.
  unfold handle_negative_values; induction t as [|r t IH]; cbn [map forallb];
    [reflexivity|].
  rewrite scrub_row_nonneg; exact IH.
Qed.

Lemma handle_negative_values_fixed_witness :
  forallb (fun r => forallb nonnegb (numeric_cells r)) steps_table = true /\
  handle_negative_values steps_table = steps_table.
Proof.
  assert (H : forallb (fun r => forallb nonnegb (numeric_cells r)) steps_table = true)
    by (vm_compute; reflexivity).
  split; [exact H | apply (proj1 (handle_negative_values_fixed steps_table)); exact H].
Defined.

(** ** Daily heart rate and weight *)

Lemma mean_none_iff {A} (col : A -> cell) (l : list A) :
  mean (map col l) = None <-> forall x, In x l -> col x = None.
Proof.
  split; [intros H; apply present_nil_none, mean_none; exact H|].
  intros H; unfold mean.
  assert (Hp : present (map col l) = []).
  { induction l as [|a l IH]; simpl; [reflexivity|].
    rewrite (H a (or_introl eq_refl)); apply IH; intros x Hx; apply H; right; exact Hx. }
  rewrite Hp; reflexivity.
Qed.

Lemma in_key_filter {A} (kf : A -> key) (k : key) (t : list A) (x : A) :
  In x (filter (fun y => key_eqb (kf y) k) t) <-> In x t /\ kf x = k.
Proof. rewrite filter_In, key_eqb_true; reflexivity. Qed.

(** [convert_second_heartrate_to_daily] yields one row per (Id, Date) with
    a date present among the readings, and no other row; the daily
    AvgHeartRate is null exactly when every reading of that day is
    null. *)
Theorem convert_second_heartrate_to_daily_spec (t : list HeartRateSecond) :
  NoDup (map fst (convert_second_heartrate_to_daily t)) /\
  (forall k, In k (map fst (convert_second_heartrate_to_daily t)) <->
             In k (map hs_key t) /\ snd k <> None) /\
  (forall o, In o (convert_second_heartrate_to_daily t) ->
     (snd o = None <-> forall h, In h t -> hs_key h = fst o -> hs_Value h = None)).
Proof.
  assert (Hfst : map fst (convert_second_heartrate_to_daily t) = group_keys (map hs_key t))
    by (unfold convert_second_heartrate_to_daily; rewrite map_map; simpl; apply map_id).
  rewrite Hfst; split; [apply group_keys_NoDup|]; split; [apply group_keys_In|].
  intros o Hin; unfold convert_second_heartrate_to_daily in Hin.
  apply in_map_iff in Hin as [k [<- _]]; simpl.
  rewrite mean_none_iff; split; intros H h.
  - intros Hh Hk; apply H, in_key_filter; auto.
  - intros Hh; apply in_key_filter in Hh as [Hh Hk]; apply H; auto.
Qed.

Lemma convert_second_heartrate_to_daily_spec_witness :
  let o := hd (day_key, None) (convert_second_heartrate_to_daily sample_seconds) in
  In o (convert_second_heartrate_to_daily sample_seconds) /\
  (snd o = None <->
   forall h, In h sample_seconds -> hs_key h = fst o -> hs_Value h = None).
Proof.
  split; [vm_compute; left; reflexivity|].
  apply (proj2 (proj2 (convert_second_heartrate_to_daily_spec sample_seconds)) _
    ltac:(vm_compute; left; reflexivity)).
Defined.

(** [convert_minute_weight_to_daily] yields one row per (Id, Date) with a
    date present among the weight logs, and no other row; the daily
    AvgWeightKg (AvgBMI) is null exactly when every log of that day has a
    null WeightKg (BMI). *)
Theorem convert_minute_weight_to_daily_spec (t : list WeightLog) :
  NoDup (map (fun o => fst (fst (fst o))) (convert_minute_weight_to_daily t)) /\
  (forall k, In k (map (fun o => fst (fst (fst o))) (convert_minute_weight_to_daily t)) <->
             In k (map wl_key t) /\ snd k <> None) /\
  (forall o, In o (convert_minute_weight_to_daily t) ->
     (snd (fst (fst o)) = None <->
        forall w, In w t -> wl_key w = fst (fst (fst o)) -> wl_WeightKg w = None) /\
     (snd o = None <->
        forall w, In w t -> wl_key w = fst (fst (fst o)) -> wl_BMI w = None)).
Proof.
  assert (Hfst : map (fun o => fst (fst (fst o))) (convert_minute_weight_to_daily t) =
                 group_keys (map wl_key t))
    by (unfold convert_minute_weight_to_daily; rewrite map_map; simpl; apply map_id).
  rewrite Hfst; split; [apply group_keys_NoDup|]; split; [apply group_keys_In|].
  intros o Hin; unfold convert_minute_weight_to_daily in Hin.
  apply in_map_iff in Hin as [k [<- _]]; simpl.
  rewrite !mean_none_iff.
  split; split; intros H w; [intros Hw Hk| |intros Hw Hk|];
    try (apply H, in_key_filter; auto);
    intros Hw; apply in_key_filter in Hw as [Hw Hk]; apply H; auto.
Qed.

Lemma convert_minute_weight_to_daily_spec_witness :
  let o := hd (day_key, None, None, None) (convert_minute_weight_to_daily sample_weights) in
  In o (convert_minute_weight_to_daily sample_weights) /\
  (snd o = None <->
   forall w, In w sample_weights -> wl_key w = fst (fst (fst o)) -> wl_BMI w = None).
Proof.
  split; [vm_compute; left; reflexivity|].
  apply (proj2 (proj2 (proj2 (convert_minute_weight_to_daily_spec sample_weights)) _
    ltac:(vm_compute; left; reflexivity))).
Defined.

(** ** Left merges *)

Lemma In_matches {A B} (ka : A -> key) (kb : B -> key) (r : list B) (a : A) (b : B) :
  In b (matches ka kb r a) <-> In b r /\ kb b = ka a.
Proof.
  unfold matches; rewrite filter_In, key_eqb_true; split; intros [H1 H2]; auto.
Qed.

(** [df.merge(other, on=["Id", "Date"], how="left")]: a merged pair
    (a, b) joins a left row to a right row with the same key; a left row is
    paired with NaN columns only when no right row has its key; every
    matching pair, and every unmatched left row, appears. *)
Theorem left_join_spec {A B} (ka : A -> key) (kb : B -> key) (l : list A) (r : list B) :
  (forall a b, In (a, Some b) (left_join ka kb l r) -> In a l /\ In b r /\ kb b = ka a) /\
  (forall a, In (a, None) (left_join ka kb l r) ->
     In a l /\ forall b, In b r -> kb b <> ka a) /\
  (forall a b, In a l -> In b r -> kb b = ka a -> In (a, Some b) (left_join ka kb l r)) /\
  (forall a, In a l -> (forall b, In b r -> kb b <> ka a) ->
     In (a, None) (left_join ka kb l r)).
Proof.
  unfold left_join; split; [|split; [|split]].
  - intros a b H; apply in_flat_map in H as [a0 [Ha0 H]].
    destruct (matches ka kb r a0) as [|b0 ms] eqn:E.
    + destruct H as [H|[]]; discriminate.
    + apply in_map_iff in H as [b' [Hb Hin]]; injection Hb as H1 H2; subst.
      rewrite <- E in Hin; apply In_matches in Hin as [Hb Hk]; auto.
  - intros a H; apply in_flat_map in H as [a0 [Ha0 H]].
    destruct (matches ka kb r a0) as [|b0 ms] eqn:E.
    + destruct H as [H|[]]; injection H as ->; split; [exact Ha0|].
      intros b Hb Hk; assert (Hm : In b (matches ka kb r a)) by (apply In_matches; auto).
      rewrite E in Hm; contradiction.
    + apply in_map_iff in H as [b' [Hb _]]; discriminate.
  - intros a b Ha Hb Hk; apply in_flat_map; exists a; split; [exact Ha|].
    assert (Hm : In b (matches ka kb r a)) by (apply In_matches; auto).
    destruct (matches ka kb r a) as [|b0 ms] eqn:E; [contradiction|].
    apply in_map_iff; exists b; split; [reflexivity | exact Hm].
  - intros a Ha Hn; apply in_flat_map; exists a; split; [exact Ha|].
    assert (Hm : matches ka kb r a = []).
    { apply filter_none; intros b Hb.
      destruct (key_eqb (ka a) (kb b)) eqn:E; [|reflexivity].
      apply key_eqb_true in E; exfalso; apply (Hn b Hb); symmetry; exact E. }
    rewrite Hm; left; reflexivity.
Qed.

Lemma left_join_spec_witness :
  In (day_key, 1%nat) [(day_key, 1%nat)] /\ In (day_key, 2%nat) [(day_key, 2%nat)] /\
  In ((day_key, 1%nat), Some (day_key, 2%nat))
     (left_join fst fst [(day_key, 1%nat)] [(day_key, 2%nat)]).
Proof.
  split; [left; reflexivity|]; split; [left; reflexivity|].
  apply (proj1 (proj2 (proj2 (left_join_spec fst fst [(day_key, 1%nat)] [(day_key, 2%nat)]))));
    [left | left |]; reflexivity.
Defined.

(** When the concatenated sleep, weight and heart-rate tables have at most
    one row per (Id, Date), [merge_all_data] returns the concatenated
    activity rows themselves, in their order, each once. *)
Theorem merge_all_data_activity {P S W H : Type}
    (act1 act2 : list (key * P)) (sl1 sl2 : list (key * S))
    (wt1 wt2 : list (key * W)) (hr1 hr2 : list (key * H)) :
  NoDup (map fst (concat_windows sl1 sl2)) ->
  NoDup (map fst (concat_windows wt1 wt2)) ->
  NoDup (map fst (concat_windows hr1 hr2)) ->
  map (fun p => fst (fst (fst p))) (merge_all_data act1 act2 sl1 sl2 wt1 wt2 hr1 hr2)
  = act1 ++ act2.
Proof.
  intros Hs Hw Hh; unfold merge_all_data; cbv zeta.
  rewrite left_join_single by (intros; apply matches_unique_keys; exact Hh).
  rewrite left_join_single by (intros; apply matches_unique_keys; exact Hw).
  rewrite left_join_single by (intros; apply matches_unique_keys; exact Hs).
  rewrite !map_map; simpl; apply map_id.
Qed.

Lemma merge_all_data_activity_witness :
  map (fun p => fst (fst (fst p)))
      (merge_all_data [(day_key, 1%nat)] [] [(day_key, 2%nat)] []
                      ([] : list (key * nat)) [] ([] : list (key * nat)) [])
  = [(day_key, 1%nat)] ++ [].
Proof.
  apply merge_all_data_activity; simpl;
    [apply NoDup_cons; [intros [] | apply NoDup_nil] | apply NoDup_nil | apply NoDup_nil].
Defined.

(** ** Files *)

Lemma in_strings_In (s : string) (l : list string) : in_strings s l = true <-> In s l.
Proof.
  unfold in_strings; rewrite existsb_exists; split.
  - intros [x [Hx E]]; apply String.eqb_eq in E; subst; exact Hx.
  - intros H; exists s; split; [exact H | apply String.eqb_refl].
Qed.

Lemma dict_set_In {V : Type} (k0 : string) (v : V) (d : list (string * V)) k f :
  In (k, f) (dict_set k0 v d) <-> (k = k0 /\ f = v) \/ (In (k, f) d /\ k <> k0).
Proof.
  unfold dict_set; simpl; rewrite filter_In; simpl.
  rewrite negb_true_iff, String.eqb_neq; split.
  - intros [H|[H1 H2]]; [left; injection H as -> ->; auto | right; auto].
  - intros [[-> ->]|[H1 H2]]; [left; reflexivity | right; auto].
Qed.

Lemma NoDup_map_fst_filter {V : Type} (p : string * V -> bool) (d : list (string * V)) :
  NoDup (map fst d) -> NoDup (map fst (filter p d)).
Proof.
  induction d as [|x d IH]; simpl; intros H; [constructor|].
  inversion H as [|? ? Hx Hd]; subst.
  destruct (p x); simpl; [|apply IH; exact Hd].
  constructor; [|apply IH; exact Hd].
  intros Hin; apply Hx; apply in_map_iff in Hin as [y [Hy Hin]].
  apply filter_In in Hin as [Hin _]; rewrite <- Hy; apply in_map; exact Hin.
Qed.

Lemma dict_set_NoDup {V : Type} (k : string) (v : V) (d : list (string * V)) :
  NoDup (map fst d) -> NoDup (map fst (dict_set k v d)).
Proof.
  intros H; unfold dict_set; simpl; constructor; [|apply NoDup_map_fst_filter; exact H].
  intros Hin; apply in_map_iff in Hin as [y [Hy Hin]].
  apply filter_In in Hin as [_ Hn]; rewrite Hy, String.eqb_refl in Hn; discriminate.
Qed.

Lemma load_fold_entries (l : list path) (d : list (string * path)) (k : string) (f : path) :
  In (k, f) (fold_left (fun dfs g => dict_set (file_key g) g dfs) l d) <->
  (exists pre post, l = pre ++ f :: post /\ file_key f = k /\
                    forall g, In g post -> file_key g <> k) \/
  (In (k, f) d /\ forall g, In g l -> file_key g <> k).
Proof.
  revert d; induction l as [|g l IH]; simpl; intros d.
  - split; [intros H; right; split; [exact H | intros _ []]|].
    intros [[pre [post [H _]]]|[H _]]; [destruct pre; discriminate | exact H].
  - rewrite IH, dict_set_In; split.
    + intros [[pre [post [-> [Hk Hpost]]]]|[[[-> ->]|[Hd Hne]] Hl]].
      * left; exists (g :: pre), post; auto.
      * left; exists [], l; auto.
      * right; split; [exact Hd|]; intros g' [<-|Hg']; [auto | apply Hl; exact Hg'].
    + intros [[pre [post [Hl [Hk Hpost]]]]|[Hd Hl]].
      * destruct pre as [|g' pre]; simpl in Hl; injection Hl as -> Hl.
        -- right; split; [left; auto | subst; exact Hpost].
        -- left; exists pre, post; auto.
      * right; split; [right; split; [exact Hd|]|].
        -- intros ->; apply (Hl g); [left; reflexivity | reflexivity].
        -- intros g' Hg'; apply Hl; right; exact Hg'.
Qed.

(** [load_data] keeps one table per key, and the table under a key is the
    last file, in glob order among the kept files, with that
    "<stem>_<tag>" key: a later file with the same key replaces an
    earlier one. *)
Theorem load_data_spec (fs : list path) :
  NoDup (map fst (load_data fs)) /\
  forall k f, In (k, f) (load_data fs) <->
    exists pre post, files_to_keep fs = pre ++ f :: post /\ file_key f = k /\
                     forall g, In g post -> file_key g <> k.
Proof.
  split.
  - unfold load_data.
    assert (Hg : forall l (d : list (string * path)), NoDup (map fst d) ->
      NoDup (map fst (fold_left (fun dfs g => dict_set (file_key g) g dfs) l d))).
    { induction l as [|g l IH]; simpl; intros d Hd; [exact Hd|].
      apply IH, dict_set_NoDup, Hd. }
    apply Hg; constructor.
  - intros k f; unfold load_data; rewrite load_fold_entries; split.
    + intros [H|[[] _]]; exact H.
    + intros H; left; exact H.
Qed.

(** [categorize_files] never puts a file in both lists: no name of
    KEEP_FILES is in REMOVE_FILES. *)
Theorem categorize_files_disjoint (fs : list path) (f : path) :
  In f (fst (categorize_files fs)) -> ~ In f (snd (categorize_files fs)).
Proof.
  unfold categorize_files; cbn [fst snd]; rewrite !filter_In, in_strings_In.
  intros [_ Hk] [_ Hr]; simpl in Hk; destruct Hk as [E|[E|[E|[E|[E|[]]]]]];
    rewrite <- E in Hr; vm_compute in Hr; discriminate.
Qed.

Lemma categorize_files_disjoint_witness :
  In april_activity_file (fst (categorize_files sample_files)) /\
  ~ In april_activity_file (snd (categorize_files sample_files)).
Proof.
  assert (H : In april_activity_file (fst (categorize_files sample_files)))
    by (vm_compute; right; left; reflexivity).
  split; [exact H | apply categorize_files_disjoint; exact H].
Defined.

(** [compare_data_folders] returns [{}] when a folder is missing;
    otherwise its three collections are the names in both folders, those
    only in the first, and those only in the second. *)
Theorem compare_data_folders_spec (folder1 folder2 : option (list string)) :
  match folder1, folder2, compare_data_folders folder1 folder2 with
  | Some l1, Some l2, Some (common, unique1, unique2) =>
      forall x, (In x common <-> In x l1 /\ In x l2) /\
                (In x unique1 <-> In x l1 /\ ~ In x l2) /\
                (In x unique2 <-> In x l2 /\ ~ In x l1)
  | Some _, Some _, None => False
  | _, _, r => r = None
  end.
Proof.
  destruct folder1 as [l1|], folder2 as [l2|]; simpl; try reflexivity.
  intros x; rewrite !filter_In, !negb_true_iff, !in_strings_In.
  assert (Hf : forall s l, in_strings s l = false <-> ~ In s l).
  { intros s l; rewrite <- in_strings_In; destruct (in_strings s l); split;
      intros H; try congruence; exfalso; apply H; reflexivity. }
  rewrite !Hf; tauto.
Qed.

(** ** Tracking flags of the cleaned table *)

Lemma handle_missing_values_sleep_flag (t : Table) (r : Row) :
  In r (handle_missing_values t) -> HasSleepData r = flag (notna (TotalMinutesAsleep r)).
Proof.
  unfold handle_missing_values; cbv zeta; intros H.
  apply in_map_iff in H as [r1 [<- H]]; apply in_map_iff in H as [r2 [<- H]].
  apply in_map_iff in H as [r3 [<- H]]; apply in_map_iff in H as [r4 [<- H]].
  reflexivity.
Qed.

Lemma scrub_flag (b : bool) : scrub (flag b) = flag b.
Proof. destruct b; reflexivity. Qed.

Lemma flag_01 (b : bool) : flag b = Some 0 \/ flag b = Some 1.
Proof. destruct b; [right | left]; reflexivity. Qed.

Lemma flag_present (c : cell) :
  option_map round2 (scrub c) <> None -> flag (notna c) = Some 1.
Proof. destruct c; simpl; [reflexivity | intros H; contradiction H; reflexivity]. Qed.

Lemma clean_data_flags_aux (t : Table) (r : Row) :
  In r (clean_data t) ->
  Forall (fun c => c = Some 0 \/ c = Some 1)
    [HasSleepData r; HasWeightData r; HasBMIData r; HasHeartRateData r] /\
  (TotalMinutesAsleep r <> None -> HasSleepData r = Some 1) /\
  (AvgWeightKg r <> None -> HasWeightData r = Some 1) /\
  (AvgBMI r <> None -> HasBMIData r = Some 1).
Proof.
  unfold clean_data, round_decimal_values, handle_negative_values,
    drop_unnecessary_columns, add_derived_metrics; intros H.
  apply in_map_iff in H as [r1 [<- H]]; apply in_map_iff in H as [r2 [<- H]].
  apply in_map_iff in H as [r3 [<- H]]; apply in_map_iff in H as [r4 [<- H]].
  apply handle_outliers_rows in H as [_ [_ [r5 [H ->]]]].
  unfold flag_weight_tracking in H; apply in_map_iff in H as [r6 [<- H]].
  apply handle_missing_values_sleep_flag in H.
  cbn [map_numeric drop_cols_row set_derived set_HasHeartRateData set_weight_flags
       HasSleepData HasWeightData HasBMIData HasHeartRateData
       TotalMinutesAsleep AvgWeightKg AvgBMI AvgHeartRate].
  rewrite H, !scrub_flag.
  split; [repeat (apply Forall_cons; [apply flag_01|]); apply Forall_nil|].
  split; [|split]; apply flag_present.
Qed.

(** In the output of [clean_data] the four tracking flags are 0 or 1,
    never null, and a flag is 1 on every row whose tracked value
    (TotalMinutesAsleep, AvgWeightKg, AvgBMI) is present.  The converse
    does not follow: a negative value nulled by [handle_negative_values]
    after the flag was set leaves the flag at 1. *)
Theorem clean_data_tracking_flags (t : Table) (r : Row) :
  In r (clean_data t) ->
  Forall (fun c => c = Some 0 \/ c = Some 1)
    [HasSleepData r; HasWeightData r; HasBMIData r; HasHeartRateData r] /\
  (TotalMinutesAsleep r <> None -> HasSleepData r = Some 1) /\
  (AvgWeightKg r <> None -> HasWeightData r = Some 1) /\
  (AvgBMI r <> None -> HasBMIData r = Some 1).
Proof. apply clean_data_flags_aux. Qed.

Lemma clean_data_tracking_flags_witness :
  let r := hd (sample_row 0 None None None None None) (clean_data impute_table) in
  In r (clean_data impute_table) /\
  Forall (fun c => c = Some 0 \/ c = Some 1)
    [HasSleepData r; HasWeightData r; HasBMIData r; HasHeartRateData r] /\
  (TotalMinutesAsleep r <> None -> HasSleepData r = Some 1) /\
  (AvgWeightKg r <> None -> HasWeightData r = Some 1) /\
  (AvgBMI r <> None -> HasBMIData r = Some 1).
Proof.
  split; [vm_compute; left; reflexivity|].
  apply (clean_data_tracking_flags impute_table); vm_compute; left; reflexivity.
Defined.

(** ** Activity levels *)

(** [categorize_activity] is monotone: more steps never give a lower
    activity level; a NaN step count is classed with zero steps. *)
Theorem categorize_activity_monotone (x y : Q) :
  x <= y ->
  (activity_rank (categorize_activity (Some x)) <=
   activity_rank (categorize_activity (Some y)))%nat /\
  categorize_activity None = categorize_activity (Some 0).
Proof.
  intros Hxy; split; [|reflexivity]; simpl.
  destruct (Qle_bool 10000 x) eqn:E1, (Qle_bool 10000 y) eqn:E2,
           (Qle_bool 5000 x) eqn:E3, (Qle_bool 5000 y) eqn:E4;
    try (vm_compute; lia);
    repeat match goal with
           | H : Qle_bool _ _ = true |- _ => apply Qle_bool_iff in H
           | H : Qle_bool _ _ = false |- _ =>
               apply not_true_iff_false in H; rewrite Qle_bool_iff in H
           end; exfalso; lra.
Qed.

Lemma categorize_activity_monotone_witness :
  inject_Z 4000 <= inject_Z 12000 /\
  (activity_rank (categorize_activity (Some (inject_Z 4000))) <=
   activity_rank (categorize_activity (Some (inject_Z 12000))))%nat.
Proof.
  assert (H : inject_Z 4000 <= inject_Z 12000) by (unfold Qle; simpl; lia).
  split; [exact H | apply (proj1 (categorize_activity_monotone _ _ H))].
Defined.

(** ** Shares of [value_counts(normalize=True)] *)

Lemma Qeq_bool_sym' (x y : Q) : Qeq_bool x y = Qeq_bool y x.
Proof.
  apply eq_true_iff_eq; rewrite !Qeq_bool_iff; split; intros H; symmetry; exact H.
Qed.

Lemma Qeq_bool_trans' (x y z : Q) :
  Qeq_bool x y = true -> Qeq_bool y z = true -> Qeq_bool x z = true.
Proof. rewrite !Qeq_bool_iff; intros H1 H2; rewrite H1; exact H2. Qed.

Lemma present_flag_column (col : Row -> cell) (t : Table) :
  (forall r, In r t -> col r = Some 0 \/ col r = Some 1) -> t <> [] ->
  present (map col t) <> [].
Proof.
  destruct t as [|r t]; intros H Hne; [contradiction Hne; reflexivity|].
  simpl; destruct (H r (or_introl eq_refl)) as [E|E]; rewrite E; discriminate.
Qed.

Lemma distinct_Q_incl (v : Q) (xs : list Q) : In v (distinct_Q xs) -> In v xs.
Proof.
  induction xs as [|x xs IH]; simpl; [auto|].
  intros [H|H]; [left; exact H|]; apply filter_In in H as [H _]; right; apply IH, H.
Qed.

Lemma present_In (v : Q) (cs : list cell) : In v (present cs) -> In (Some v) cs.
Proof.
  induction cs as [|[x|] cs IH]; simpl; [auto| |].
  - intros [->|H]; [left; reflexivity | right; apply IH, H].
  - intros H; right; apply IH, H.
Qed.

Lemma value_counts_values (v p : Q) (cs : list cell) :
  In (v, p) (value_counts_normalized cs) -> In (Some v) cs.
Proof.
  unfold value_counts_normalized; intros H; apply in_map_iff in H as [w [Hw Hin]].
  injection Hw as -> _; apply present_In, distinct_Q_incl, Hin.
Qed.

Lemma clean_flag_cols (t : Table) (r : Row) :
  In r (clean_data t) ->
  (HasSleepData r = Some 0 \/ HasSleepData r = Some 1) /\
  (HasWeightData r = Some 0 \/ HasWeightData r = Some 1) /\
  (HasBMIData r = Some 0 \/ HasBMIData r = Some 1) /\
  (HasHeartRateData r = Some 0 \/ HasHeartRateData r = Some 1).
Proof.
  intros Hr; destruct (clean_data_flags_aux t r Hr) as [Hf _].
  rewrite !Forall_cons_iff in Hf; tauto.
Qed.

Lemma count_eq_pos (v : Q) (xs : list Q) : In v xs -> (1 <= count_eq v xs)%nat.
Proof.
  induction xs as [|x xs IH]; simpl; [contradiction|].
  intros [->|H]; [rewrite Qeq_bool_refl; lia | specialize (IH H); lia].
Qed.

Lemma count_eq_le (v : Q) (xs : list Q) : (count_eq v xs <= List.length xs)%nat.
Proof.
  induction xs as [|x xs IH]; simpl; [lia|]; destruct (Qeq_bool x v); lia.
Qed.

Lemma In_present (v : Q) (cs : list cell) : In (Some v) cs -> In v (present cs).
Proof.
  induction cs as [|[x|] cs IH]; simpl; [auto| |].
  - intros [H|H]; [injection H as ->; left; reflexivity | right; apply IH, H].
  - intros [H|H]; [discriminate | apply IH, H].
Qed.

Lemma distinct_cover (v : Q) (xs : list Q) :
  In v xs -> exists w, In w (distinct_Q xs) /\ Qeq_bool v w = true.
Proof.
  induction xs as [|x xs IH]; simpl; [contradiction|].
  intros [->|H]; [exists v; split; [left; reflexivity | apply Qeq_bool_refl]|].
  destruct (IH H) as [w [Hw Hvw]].
  destruct (Qeq_bool w x) eqn:E.
  - exists x; split; [left; reflexivity | exact (Qeq_bool_trans' _ _ _ Hvw E)].
  - exists w; split; [right; apply filter_In; rewrite E; auto | exact Hvw].
Qed.

Lemma ForallOrdPairs_filter {X} (R : X -> X -> Prop) (f : X -> bool) (l : list X) :
  ForallOrdPairs R l -> ForallOrdPairs R (filter f l).
Proof.
  induction l as [|x l IH]; simpl; intros H; [constructor|].
  inversion H as [|? ? Hx Hl]; subst.
  destruct (f x); [constructor|]; auto.
  apply Forall_forall; intros y Hy; apply filter_In in Hy as [Hy _].
  rewrite Forall_forall in Hx; auto.
Qed.

Lemma distinct_pairs (xs : list Q) :
  ForallOrdPairs (fun a b => Qeq_bool a b = false) (distinct_Q xs).
Proof.
  induction xs as [|x xs IH]; simpl; constructor.
  - apply Forall_forall; intros y Hy; apply filter_In in Hy as [_ Hy].
    rewrite Qeq_bool_sym'; apply negb_true_iff; exact Hy.
  - apply ForallOrdPairs_filter; exact IH.
Qed.

Lemma ForallOrdPairs_weaken {X} (R R' : X -> X -> Prop) (l : list X) :
  (forall a b, R a b -> R' a b) -> ForallOrdPairs R l -> ForallOrdPairs R' l.
Proof.
  intros HR; induction l as [|x l IH]; intros H; [constructor|].
  inversion H as [|? ? Hx Hl]; subst; constructor; [|auto].
  eapply Forall_impl; [|exact Hx]; auto.
Qed.

Lemma ForallOrdPairs_map {X Y} (R : Y -> Y -> Prop) (f : X -> Y) (l : list X) :
  ForallOrdPairs (fun a b => R (f a) (f b)) l -> ForallOrdPairs R (map f l).
Proof.
  induction l as [|x l IH]; simpl; intros H; [constructor|].
  inversion H as [|? ? Hx Hl]; subst; constructor; [|auto].
  apply Forall_map; exact Hx.
Qed.

(** [value_counts(normalize=True) * 100] lists each non-NaN value of the
    column once (no two listed values are equal) and nothing else, and
    gives each a share greater than 0 and at most 100. *)
Theorem value_counts_normalized_spec (cs : list cell) :
  (forall v p, In (v, p) (value_counts_normalized cs) -> In (Some v) cs /\ 0 < p <= 100) /\
  (forall v, In (Some v) cs -> exists w p, In (w, p) (value_counts_normalized cs) /\ w == v) /\
  ForallOrdPairs (fun a b => ~ fst a == fst b) (value_counts_normalized cs).
Proof.
  split; [|split].
  - intros v p H; split; [eapply value_counts_values; exact H|].
    unfold value_counts_normalized in H; apply in_map_iff in H as [w [Hw Hin]].
    injection Hw as -> <-; apply distinct_Q_incl in Hin.
    pose proof (count_eq_pos _ _ Hin) as H1; pose proof (count_eq_le v (present cs)) as H2.
    set (C := inject_Z (Z.of_nat (count_eq v (present cs)))).
    set (N := inject_Z (Z.of_nat (List.length (present cs)))).
    assert (HC : 1 <= C) by (unfold C; change 1 with (inject_Z 1); rewrite <- Zle_Qle; lia).
    assert (HCN : C <= 1 * N)
      by (rewrite Qmult_1_l; unfold C, N; rewrite <- Zle_Qle; lia).
    assert (HN : 0 < N) by lra.
    assert (Hlo : 0 < C / N) by (apply Qlt_shift_div_l; [exact HN | lra]).
    assert (Hhi : C / N <= 1) by (apply Qle_shift_div_r; [exact HN | exact HCN]).
    lra.
  - intros v Hv; apply In_present, distinct_cover in Hv as [w [Hw Hvw]].
    exists w, (inject_Z (Z.of_nat (count_eq w (present cs)))
                 / inject_Z (Z.of_nat (List.length (present cs))) * 100).
    split; [apply in_map_iff; exists w; split; [reflexivity | exact Hw]|].
    apply Qeq_bool_iff in Hvw; symmetry; exact Hvw.
  - unfold value_counts_normalized; cbv zeta.
    apply ForallOrdPairs_map; simpl.
    eapply ForallOrdPairs_weaken; [|apply distinct_pairs].
    intros a b Hab Heq; apply Qeq_bool_iff in Heq; congruence.
Qed.

Lemma value_counts_normalized_spec_witness :
  let e := hd (0, 0) (value_counts_normalized [Some 1; Some 1; Some 0]) in
  In e (value_counts_normalized [Some 1; Some 1; Some 0]) /\ 0 < snd e <= 100.
Proof.
  assert (H : In (hd (0, 0) (value_counts_normalized [Some 1; Some 1; Some 0]))
                 (value_counts_normalized [Some 1; Some 1; Some 0]))
    by (vm_compute; left; reflexivity).
  split; [exact H|].
  destruct (hd (0, 0) (value_counts_normalized [Some 1; Some 1; Some 0])) as [v p] eqn:E.
  exact (proj2 (proj1 (value_counts_normalized_spec [Some 1; Some 1; Some 0]) v p H)).
Defined.

Lemma segment_flag_column (col : Row -> cell) (t : Table) :
  (forall r, In r (clean_data t) -> col r = Some 0 \/ col r = Some 1) ->
  clean_data t <> [] ->
  value_counts_normalized (map col (clean_data t)) <> [] /\
  forall v p, In (v, p) (value_counts_normalized (map col (clean_data t))) -> v = 0 \/ v = 1.
Proof.
  intros Hc Hne; split.
  - pose proof (present_flag_column col (clean_data t) Hc Hne) as Hp.
    unfold value_counts_normalized; cbv zeta.
    destruct (present (map col (clean_data t))); [contradiction Hp; reflexivity|].
    discriminate.
  - intros v p H; apply value_counts_values, in_map_iff in H as [r [Hr Hin]].
    destruct (Hc r Hin) as [E|E]; rewrite E in Hr; injection Hr as <-; auto.
Qed.

(** On a non-empty cleaned table, [segment_users_by_sleep_tracking],
    [segment_users_by_heart_rate_tracking] and both parts of
    [segment_users_by_weight_tracking] are non-empty and their only
    categories are 0 and 1: the flags are never NaN there. *)
Theorem segment_users_clean_categories (t : Table) :
  clean_data t <> [] ->
  forall seg, In seg [segment_users_by_sleep_tracking (clean_data t);
                      segment_users_by_heart_rate_tracking (clean_data t);
                      fst (segment_users_by_weight_tracking (clean_data t));
                      snd (segment_users_by_weight_tracking (clean_data t))] ->
  seg <> [] /\ forall v p, In (v, p) seg -> v = 0 \/ v = 1.
Proof.
  intros Hne seg Hseg; unfold segment_users_by_sleep_tracking,
    segment_users_by_heart_rate_tracking, segment_users_by_weight_tracking in Hseg.
  cbn [fst snd In] in Hseg.
  destruct Hseg as [<-|[<-|[<-|[<-|[]]]]]; apply segment_flag_column; try exact Hne;
    intros r Hr; pose proof (clean_flag_cols t r Hr); tauto.
Qed.

Lemma segment_users_clean_categories_witness :
  clean_data steps_table <> [] /\
  segment_users_by_heart_rate_tracking (clean_data steps_table) <> [].
Proof.
  assert (H : clean_data steps_table <> []) by (vm_compute; discriminate).
  split; [exact H|].
  apply (segment_users_clean_categories steps_table H); right; left; reflexivity.
Defined.
